(** * Composable Paxos: a shallow embedding of [composable_paxos.py]

    The module implements single-decree Paxos as three message-driven
    classes ([Proposer], [Acceptor], [Learner]) and one aggregate
    ([PaxosInstance]).  Every method is embedded as a function from the
    object's state to the new state and an outcome: the returned message,
    [None] for a call that falls off the end of the method, or the
    exception that was raised together with the state as the exception
    left it.

    Modelling conventions.
    - The source file holds non-ASCII text and declares no encoding, so
      it is a Python 3 module: strings are [str], integers are unbounded,
      and the ordering operators are defined between two tuples but not
      between a tuple and [None].
    - Node uids and values are strings; [None] is the absence of a value,
      so optional attributes are [option]s.  Node uids and values are
      never [None] themselves: the source tests [is None] to tell a
      missing value from a present one.
    - Proposal numbers, counters and quorum sizes are [Z].
    - Python sets and dicts are [gset] and [gmap].
    - The source applies [<=], [>=] and [>] to attributes that start out
      as [None].  Such a comparison raises [TypeError]; the methods below
      do so at the very places the source compares, with the state as it
      is at that point. *)

From Stdlib Require Import Ascii String.
From stdpp Require Import gmap strings list fin_maps.

Local Open Scope Z_scope.

(** ** Proposal identifiers *)

(** [ProposalID = collections.namedtuple('ProposalID', ['number', 'uid'])] *)
Record ProposalID := mkProposalID { number : Z; uid : string }.

#[global] Instance ProposalID_eq_dec : EqDecision ProposalID.
Proof. solve_decision. Defined.

#[global] Instance ProposalID_countable : Countable ProposalID.
Proof.
  refine (inj_countable' (fun p => (number p, uid p))
                         (fun q => mkProposalID (fst q) (snd q)) _).
  by intros [].
Defined.

(** Tuple comparison: the first differing component decides. *)
Definition ProposalID_compare (a b : ProposalID) : comparison :=
  match Z.compare (number a) (number b) with
  | Eq => String.compare (uid a) (uid b)
  | c => c
  end.

(** [a > b], [a >= b] and [a <= b] on two proposal ids. *)
Definition ProposalID_gt (a b : ProposalID) : bool :=
  match ProposalID_compare a b with Gt => true | _ => false end.

Definition ProposalID_ge (a b : ProposalID) : bool :=
  match ProposalID_compare a b with Lt => false | _ => true end.

Definition ProposalID_le (a b : ProposalID) : bool :=
  match ProposalID_compare a b with Gt => false | _ => true end.

(** ** Messages *)

Module Prepare.
Record t := mk { from_uid : string; proposal_id : ProposalID }.
End Prepare.

Module Nack.
Record t := mk {
  from_uid : string;
  proposer_uid : string;
  proposal_id : ProposalID;
  promised_proposal_id : option ProposalID
}.
End Nack.

Module Promise.
Record t := mk {
  from_uid : string;
  proposer_uid : string;
  proposal_id : ProposalID;
  last_accepted_id : option ProposalID;
  last_accepted_value : option string
}.
End Promise.

Module Accept.
Record t := mk {
  from_uid : string;
  proposal_id : ProposalID;
  proposal_value : string
}.
End Accept.

Module Accepted.
Record t := mk {
  from_uid : string;
  proposal_id : ProposalID;
  proposal_value : string
}.
End Accepted.

Module Resolution.
Record t := mk { from_uid : string; value : string }.
End Resolution.

(** The subclasses of [PaxosMessage]. *)
Inductive PaxosMessage :=
| MPrepare (m : Prepare.t)
| MNack (m : Nack.t)
| MPromise (m : Promise.t)
| MAccept (m : Accept.t)
| MAccepted (m : Accepted.t)
| MResolution (m : Resolution.t).

(** [msg.__class__.__name__] *)
Definition class_name (msg : PaxosMessage) : string :=
  match msg with
  | MPrepare _ => "Prepare"
  | MNack _ => "Nack"
  | MPromise _ => "Promise"
  | MAccept _ => "Accept"
  | MAccepted _ => "Accepted"
  | MResolution _ => "Resolution"
  end.

(** ** Exceptions and outcomes *)

Inductive exn :=
| InvalidMessageError
| AssertionError
| KeyError
| TypeError
| AttributeError.

(** What a call hands back to its caller. *)
Inductive outcome :=
| Return (m : option PaxosMessage)
| Raise (e : exn).

#[global] Instance exn_eq_dec : EqDecision exn.
Proof. solve_decision. Defined.

(** The rest of a method body after a call to another method of the same
    object: it runs on the state the call left, unless the call raised,
    in which case the exception goes on to the caller. *)
Definition and_then {S : Type} (r : S * outcome) (rest : S -> S * outcome)
  : S * outcome :=
  match r with
  | (self, Return _) => rest self
  | (self, Raise e) => (self, Raise e)
  end.

(** ** Message dispatch ([MessageHandler]) *)

(** [str.lower] on the class names, which are ASCII. *)
Definition ascii_lower (c : ascii) : ascii :=
  let n := nat_of_ascii c in
  if ((65 <=? n) && (n <=? 90))%nat then ascii_of_nat (n + 32) else c.

Fixpoint lower (s : string) : string :=
  match s with
  | EmptyString => EmptyString
  | String c s' => String (ascii_lower c) (lower s')
  end.

(** A bound method that takes a message. *)
Definition handler (S : Type) : Type := S -> PaxosMessage -> S * outcome.

(** [getattr(self, name, None)] restricted to the methods of the class,
    listed in method resolution order. *)
Fixpoint getattr {S : Type} (methods : list (string * handler S)) (name : string)
  : option (handler S) :=
  match methods with
  | [] => None
  | (n, h) :: rest => if String.eqb n name then Some h else getattr rest name
  end.

(** [MessageHandler.receive] *)
Definition receive {S : Type} (methods : list (string * handler S))
    (self : S) (msg : PaxosMessage) : S * outcome :=
  match getattr methods ("receive_" +:+ lower (class_name msg)) with
  | None => (self, Raise InvalidMessageError)
  | Some h => h self msg
  end.

(** A method body reads the attributes of the message class it was
    written for; handed any other object it fails on the first attribute
    it misses.  Dispatch by class name never does that. *)
Definition on_prepare {S : Type} (f : S -> Prepare.t -> S * outcome) : handler S :=
  fun self msg =>
    match msg with MPrepare m => f self m | _ => (self, Raise AttributeError) end.

Definition on_nack {S : Type} (f : S -> Nack.t -> S * outcome) : handler S :=
  fun self msg =>
    match msg with MNack m => f self m | _ => (self, Raise AttributeError) end.

Definition on_promise {S : Type} (f : S -> Promise.t -> S * outcome) : handler S :=
  fun self msg =>
    match msg with MPromise m => f self m | _ => (self, Raise AttributeError) end.

Definition on_accept {S : Type} (f : S -> Accept.t -> S * outcome) : handler S :=
  fun self msg =>
    match msg with MAccept m => f self m | _ => (self, Raise AttributeError) end.

Definition on_accepted {S : Type} (f : S -> Accepted.t -> S * outcome) : handler S :=
  fun self msg =>
    match msg with MAccepted m => f self m | _ => (self, Raise AttributeError) end.

(** ** Acceptor *)

Module Acceptor.
Record t := mk {
  network_uid : string;
  promised_id : option ProposalID;
  accepted_id : option ProposalID;
  accepted_value : option string
}.

(** [Acceptor.__init__] *)
Definition init (network_uid : string) (promised_id accepted_id : option ProposalID)
    (accepted_value : option string) : t :=
  mk network_uid promised_id accepted_id accepted_value.

Definition receive_prepare (self : t) (msg : Prepare.t) : t * outcome :=
  match promised_id self with
  | None =>
      (* [msg.proposal_id >= None] *)
      (self, Raise TypeError)
  | Some promised =>
      if ProposalID_ge (Prepare.proposal_id msg) promised then
        let self := mk (network_uid self) (Some (Prepare.proposal_id msg))
                       (accepted_id self) (accepted_value self) in
        (self, Return (Some (MPromise
           (Promise.mk (network_uid self) (Prepare.from_uid msg)
                       (Prepare.proposal_id msg)
                       (accepted_id self) (accepted_value self)))))
      else
        (self, Return (Some (MNack
           (Nack.mk (network_uid self) (Prepare.from_uid msg)
                    (Prepare.proposal_id msg) (promised_id self)))))
  end.

Definition receive_accept (self : t) (msg : Accept.t) : t * outcome :=
  match promised_id self with
  | None =>
      (* [msg.proposal_id >= None] *)
      (self, Raise TypeError)
  | Some promised =>
      if ProposalID_ge (Accept.proposal_id msg) promised then
        let self := mk (network_uid self) (Some (Accept.proposal_id msg))
                       (Some (Accept.proposal_id msg))
                       (Some (Accept.proposal_value msg)) in
        (self, Return (Some (MAccepted
           (Accepted.mk (network_uid self) (Accept.proposal_id msg)
                        (Accept.proposal_value msg)))))
      else
        (self, Return (Some (MNack
           (Nack.mk (network_uid self) (Accept.from_uid msg)
                    (Accept.proposal_id msg) (promised_id self)))))
  end.

(** The [receive_*] attributes of the class. *)
Definition methods : list (string * handler t) :=
  [ ("receive_prepare", on_prepare receive_prepare);
    ("receive_accept", on_accept receive_accept) ].

Definition receive : handler t := receive methods.

(** Feeding a sequence of messages to one acceptor; a call that raises
    leaves the acceptor as the exception left it. *)
Fixpoint run (self : t) (msgs : list PaxosMessage) : t :=
  match msgs with
  | [] => self
  | msg :: rest => run (fst (receive self msg)) rest
  end.
End Acceptor.

(** ** Proposer *)

Module Proposer.
Record t := mk {
  network_uid : string;
  quorum_size : Z;
  leader : bool;
  proposed_value : option string;
  proposal_id : ProposalID;
  highest_proposal_id : ProposalID;
  highest_accepted_id : option ProposalID;
  promises_received : option (gset string);
  nacks_received : option (gset string);
  current_prepare_msg : option Prepare.t;
  current_accept_msg : option Accept.t
}.

(** Attribute assignments, one per attribute the methods write. *)
Definition set_leader (v : bool) (s : t) : t :=
  mk (network_uid s) (quorum_size s) v (proposed_value s) (proposal_id s)
     (highest_proposal_id s) (highest_accepted_id s) (promises_received s)
     (nacks_received s) (current_prepare_msg s) (current_accept_msg s).
Definition set_proposed_value (v : option string) (s : t) : t :=
  mk (network_uid s) (quorum_size s) (leader s) v (proposal_id s)
     (highest_proposal_id s) (highest_accepted_id s) (promises_received s)
     (nacks_received s) (current_prepare_msg s) (current_accept_msg s).
Definition set_proposal_id (v : ProposalID) (s : t) : t :=
  mk (network_uid s) (quorum_size s) (leader s) (proposed_value s) v
     (highest_proposal_id s) (highest_accepted_id s) (promises_received s)
     (nacks_received s) (current_prepare_msg s) (current_accept_msg s).
Definition set_highest_proposal_id (v : ProposalID) (s : t) : t :=
  mk (network_uid s) (quorum_size s) (leader s) (proposed_value s) (proposal_id s)
     v (highest_accepted_id s) (promises_received s)
     (nacks_received s) (current_prepare_msg s) (current_accept_msg s).
Definition set_highest_accepted_id (v : option ProposalID) (s : t) : t :=
  mk (network_uid s) (quorum_size s) (leader s) (proposed_value s) (proposal_id s)
     (highest_proposal_id s) v (promises_received s)
     (nacks_received s) (current_prepare_msg s) (current_accept_msg s).
Definition set_promises_received (v : option (gset string)) (s : t) : t :=
  mk (network_uid s) (quorum_size s) (leader s) (proposed_value s) (proposal_id s)
     (highest_proposal_id s) (highest_accepted_id s) v
     (nacks_received s) (current_prepare_msg s) (current_accept_msg s).
Definition set_nacks_received (v : option (gset string)) (s : t) : t :=
  mk (network_uid s) (quorum_size s) (leader s) (proposed_value s) (proposal_id s)
     (highest_proposal_id s) (highest_accepted_id s) (promises_received s)
     v (current_prepare_msg s) (current_accept_msg s).
Definition set_current_prepare_msg (v : option Prepare.t) (s : t) : t :=
  mk (network_uid s) (quorum_size s) (leader s) (proposed_value s) (proposal_id s)
     (highest_proposal_id s) (highest_accepted_id s) (promises_received s)
     (nacks_received s) v (current_accept_msg s).
Definition set_current_accept_msg (v : option Accept.t) (s : t) : t :=
  mk (network_uid s) (quorum_size s) (leader s) (proposed_value s) (proposal_id s)
     (highest_proposal_id s) (highest_accepted_id s) (promises_received s)
     (nacks_received s) (current_prepare_msg s) v.

(** [Proposer.__init__]; the remaining attributes are the class defaults. *)
Definition init (network_uid : string) (quorum_size : Z) : t :=
  mk network_uid quorum_size false None
     (mkProposalID 0 network_uid) (mkProposalID 0 network_uid)
     None None None None None.

Definition propose_value (self : t) (value : string) : t * option Accept.t :=
  match proposed_value self with
  | None =>
      let self := set_proposed_value (Some value) self in
      if leader self then
        let msg := Accept.mk (network_uid self) (proposal_id self) value in
        (set_current_accept_msg (Some msg) self, Some msg)
      else (self, None)
  | Some _ => (self, None)
  end.

Definition prepare (self : t) : t * Prepare.t :=
  let self := set_leader false self in
  let self := set_promises_received (Some ∅) self in
  let self := set_nacks_received (Some ∅) self in
  let self := set_proposal_id
    (mkProposalID (number (highest_proposal_id self) + 1) (network_uid self)) self in
  let self := set_highest_proposal_id (proposal_id self) self in
  let msg := Prepare.mk (network_uid self) (proposal_id self) in
  (set_current_prepare_msg (Some msg) self, msg).

Definition observe_proposal (self : t) (proposal_id : option ProposalID)
  : t * outcome :=
  match proposal_id with
  | None =>
      (* [None > self.highest_proposal_id] *)
      (self, Raise TypeError)
  | Some pid =>
      if ProposalID_gt pid (highest_proposal_id self)
      then (set_highest_proposal_id pid self, Return None)
      else (self, Return None)
  end.

Definition receive_nack (self : t) (msg : Nack.t) : t * outcome :=
  and_then (observe_proposal self (Nack.promised_proposal_id msg)) (fun self =>
  if bool_decide (Nack.proposal_id msg = proposal_id self) then
    match nacks_received self with
    | Some nacks =>
        let nacks := {[ Nack.from_uid msg ]} ∪ nacks in
        let self := set_nacks_received (Some nacks) self in
        if Z.of_nat (size nacks) =? quorum_size self then
          let '(self, msg) := prepare self in
          (self, Return (Some (MPrepare msg)))
        else (self, Return None)
    | None => (self, Return None)
    end
  else (self, Return None)).

Definition receive_promise (self : t) (msg : Promise.t) : t * outcome :=
  and_then (observe_proposal self (Some (Promise.proposal_id msg))) (fun self =>
  if negb (leader self) && bool_decide (Promise.proposal_id msg = proposal_id self) then
    match promises_received self with
    | None =>
        (* [msg.from_uid not in None] *)
        (self, Raise TypeError)
    | Some promises =>
        if bool_decide (Promise.from_uid msg ∉ promises) then
          let promises := {[ Promise.from_uid msg ]} ∪ promises in
          let self := set_promises_received (Some promises) self in
          match Promise.last_accepted_id msg, highest_accepted_id self with
          | Some last, Some highest =>
              let self :=
                if ProposalID_gt last highest then
                  let self := set_highest_accepted_id (Some last) self in
                  match Promise.last_accepted_value msg with
                  | Some v => set_proposed_value (Some v) self
                  | None => self
                  end
                else self in
              if Z.of_nat (size promises) =? quorum_size self then
                let self := set_leader true self in
                match proposed_value self with
                | Some v =>
                    let msg := Accept.mk (network_uid self) (proposal_id self) v in
                    (set_current_accept_msg (Some msg) self,
                     Return (Some (MAccept msg)))
                | None => (self, Return None)
                end
              else (self, Return None)
          | _, _ =>
              (* [msg.last_accepted_id > self.highest_accepted_id] with
                 [None] on either side *)
              (self, Raise TypeError)
          end
        else (self, Return None)
    end
  else (self, Return None)).

Definition methods : list (string * handler t) :=
  [ ("receive_nack", on_nack receive_nack);
    ("receive_promise", on_promise receive_promise) ].

Definition receive : handler t := receive methods.

(** The calls the class offers to its user. *)
Inductive call :=
| CallProposeValue (value : string)
| CallPrepare
| CallObserveProposal (proposal_id : option ProposalID)
| CallReceive (msg : PaxosMessage).

(** The proposer after one call, whatever the call handed back. *)
Definition invoke (self : t) (c : call) : t :=
  match c with
  | CallProposeValue value => fst (propose_value self value)
  | CallPrepare => fst (prepare self)
  | CallObserveProposal proposal_id => fst (observe_proposal self proposal_id)
  | CallReceive msg => fst (receive self msg)
  end.

Fixpoint run (self : t) (calls : list call) : t :=
  match calls with
  | [] => self
  | c :: rest => run (invoke self c) rest
  end.
End Proposer.

(** ** Learner *)

Module ProposalStatus.
(** [Learner.ProposalStatus] *)
Record t := mk {
  accept_count : Z;
  retain_count : Z;
  acceptors : gset string;
  value : string
}.

Definition init (value : string) : t := mk 0 0 ∅ value.
End ProposalStatus.

Module Learner.
Record t := mk {
  network_uid : string;
  quorum_size : Z;
  proposals : option (gmap ProposalID ProposalStatus.t);
  acceptors : option (gmap string ProposalID);
  final_value : option string;
  final_acceptors : option (gset string);
  final_proposal_id : option ProposalID
}.

Definition set_proposals (v : option (gmap ProposalID ProposalStatus.t)) (s : t) : t :=
  mk (network_uid s) (quorum_size s) v (acceptors s) (final_value s)
     (final_acceptors s) (final_proposal_id s).
Definition set_acceptors (v : option (gmap string ProposalID)) (s : t) : t :=
  mk (network_uid s) (quorum_size s) (proposals s) v (final_value s)
     (final_acceptors s) (final_proposal_id s).
Definition set_final_acceptors (v : option (gset string)) (s : t) : t :=
  mk (network_uid s) (quorum_size s) (proposals s) (acceptors s) (final_value s)
     v (final_proposal_id s).

(** [Learner.__init__] *)
Definition init (network_uid : string) (quorum_size : Z) : t :=
  mk network_uid quorum_size (Some ∅) (Some ∅) None None None.

(** The branch of [receive_accepted] taken once [final_value] is set. *)
Definition already_resolved (self : t) (final : string) (msg : Accepted.t)
  : t * outcome :=
  let reply := Return (Some (MResolution (Resolution.mk (network_uid self) final))) in
  match final_proposal_id self with
  | None =>
      (* [msg.proposal_id >= None] *)
      (self, Raise TypeError)
  | Some final_id =>
      if ProposalID_ge (Accepted.proposal_id msg) final_id
         && bool_decide (Accepted.proposal_value msg = final) then
        match final_acceptors self with
        | Some fa =>
            (set_final_acceptors (Some ({[ Accepted.from_uid msg ]} ∪ fa)) self, reply)
        | None => (self, Raise AttributeError)
        end
      else (self, reply)
  end.

(** [if last_pn is not None: ...]: the sender's previous vote is taken
    back.  The second component is the exception raised on the way, if
    any; the state is the one the exception leaves behind. *)
Definition revoke_vote (self : t) (last_pn : option ProposalID) (from_uid : string)
  : t * option exn :=
  match last_pn with
  | None => (self, None)
  | Some lp =>
      match proposals self with
      | None => (self, Some TypeError)
      | Some props =>
          match props !! lp with
          | None => (self, Some KeyError)
          | Some ps =>
              let ps := ProposalStatus.mk
                          (ProposalStatus.accept_count ps)
                          (ProposalStatus.retain_count ps - 1)
                          (ProposalStatus.acceptors ps)
                          (ProposalStatus.value ps) in
              if bool_decide (from_uid ∈ ProposalStatus.acceptors ps) then
                let ps := ProposalStatus.mk
                            (ProposalStatus.accept_count ps)
                            (ProposalStatus.retain_count ps)
                            (ProposalStatus.acceptors ps ∖ {[ from_uid ]})
                            (ProposalStatus.value ps) in
                if ProposalStatus.retain_count ps =? 0 then
                  (set_proposals (Some (delete lp props)) self, None)
                else
                  (set_proposals (Some (<[lp := ps]> props)) self, None)
              else
                (set_proposals (Some (<[lp := ps]> props)) self, Some KeyError)
          end
      end
  end.

(** From [if not msg.proposal_id in self.proposals] to the end of
    [receive_accepted]: the vote is counted and a quorum resolves. *)
Definition count_vote (self : t) (msg : Accepted.t) : t * outcome :=
  match proposals self with
  | None => (self, Raise TypeError)
  | Some props =>
      let '(props, ps) :=
        match props !! Accepted.proposal_id msg with
        | Some ps => (props, ps)
        | None =>
            let ps := ProposalStatus.init (Accepted.proposal_value msg) in
            (<[Accepted.proposal_id msg := ps]> props, ps)
        end in
      if bool_decide (Accepted.proposal_value msg = ProposalStatus.value ps) then
        let ps := ProposalStatus.mk
                    (ProposalStatus.accept_count ps + 1)
                    (ProposalStatus.retain_count ps + 1)
                    ({[ Accepted.from_uid msg ]} ∪ ProposalStatus.acceptors ps)
                    (ProposalStatus.value ps) in
        if ProposalStatus.accept_count ps =? quorum_size self then
          (mk (network_uid self) (quorum_size self) None None
              (Some (Accepted.proposal_value msg))
              (Some (ProposalStatus.acceptors ps))
              (Some (Accepted.proposal_id msg)),
           Return (Some (MResolution
             (Resolution.mk (network_uid self) (Accepted.proposal_value msg)))))
        else
          (set_proposals (Some (<[Accepted.proposal_id msg := ps]> props)) self,
           Return None)
      else
        (set_proposals (Some props) self, Raise AssertionError)
  end.

Definition receive_accepted (self : t) (msg : Accepted.t) : t * outcome :=
  match final_value self with
  | Some final => already_resolved self final msg
  | None =>
      match acceptors self with
      | None => (self, Raise AttributeError)
      | Some accs =>
          let last_pn := accs !! Accepted.from_uid msg in
          match last_pn with
          | None =>
              (* [msg.proposal_id <= None]: the sender has no entry yet *)
              (self, Raise TypeError)
          | Some last =>
              if ProposalID_le (Accepted.proposal_id msg) last then
                (self, Return None)
              else
                let self :=
                  set_acceptors
                    (Some (<[Accepted.from_uid msg := Accepted.proposal_id msg]> accs))
                    self in
                match revoke_vote self last_pn (Accepted.from_uid msg) with
                | (self, Some e) => (self, Raise e)
                | (self, None) => count_vote self msg
                end
          end
      end
  end.

Definition methods : list (string * handler t) :=
  [ ("receive_accepted", on_accepted receive_accepted) ].

Definition receive : handler t := receive methods.

(** Feeding a sequence of [Accepted] messages to one learner; the
    outcomes are collected in order. *)
Fixpoint run (self : t) (msgs : list Accepted.t) : t * list outcome :=
  match msgs with
  | [] => (self, [])
  | msg :: rest =>
      let '(self, o) := receive_accepted self msg in
      let '(self, os) := run self rest in
      (self, o :: os)
  end.
End Learner.

(** ** PaxosInstance *)

(** A method inherited from a base class runs on the attributes that class
    knows about and leaves the others alone: [get] reads the base class's
    attributes off the object, [put] writes them back. *)
Definition inherit {S B M : Type} (get : S -> B) (put : B -> S -> S)
    (f : B -> M -> B * outcome) : S -> M -> S * outcome :=
  fun self msg => let '(b, o) := f (get self) msg in (put b self, o).

Module PaxosInstance.
(** One object carrying the attributes of all three roles;
    [network_uid] and [quorum_size] are shared. *)
Record t := mk {
  network_uid : string;
  quorum_size : Z;
  leader : bool;
  proposed_value : option string;
  proposal_id : ProposalID;
  highest_proposal_id : ProposalID;
  highest_accepted_id : option ProposalID;
  promises_received : option (gset string);
  nacks_received : option (gset string);
  current_prepare_msg : option Prepare.t;
  current_accept_msg : option Accept.t;
  promised_id : option ProposalID;
  accepted_id : option ProposalID;
  accepted_value : option string;
  proposals : option (gmap ProposalID ProposalStatus.t);
  acceptors : option (gmap string ProposalID);
  final_value : option string;
  final_acceptors : option (gset string);
  final_proposal_id : option ProposalID
}.

Definition as_proposer (s : t) : Proposer.t :=
  Proposer.mk (network_uid s) (quorum_size s) (leader s) (proposed_value s)
    (proposal_id s) (highest_proposal_id s) (highest_accepted_id s)
    (promises_received s) (nacks_received s)
    (current_prepare_msg s) (current_accept_msg s).

Definition with_proposer (p : Proposer.t) (s : t) : t :=
  mk (Proposer.network_uid p) (Proposer.quorum_size p) (Proposer.leader p)
     (Proposer.proposed_value p) (Proposer.proposal_id p)
     (Proposer.highest_proposal_id p) (Proposer.highest_accepted_id p)
     (Proposer.promises_received p) (Proposer.nacks_received p)
     (Proposer.current_prepare_msg p) (Proposer.current_accept_msg p)
     (promised_id s) (accepted_id s) (accepted_value s)
     (proposals s) (acceptors s) (final_value s) (final_acceptors s)
     (final_proposal_id s).

Definition as_acceptor (s : t) : Acceptor.t :=
  Acceptor.mk (network_uid s) (promised_id s) (accepted_id s) (accepted_value s).

Definition with_acceptor (a : Acceptor.t) (s : t) : t :=
  mk (Acceptor.network_uid a) (quorum_size s) (leader s)
     (proposed_value s) (proposal_id s)
     (highest_proposal_id s) (highest_accepted_id s)
     (promises_received s) (nacks_received s)
     (current_prepare_msg s) (current_accept_msg s)
     (Acceptor.promised_id a) (Acceptor.accepted_id a) (Acceptor.accepted_value a)
     (proposals s) (acceptors s) (final_value s) (final_acceptors s)
     (final_proposal_id s).

Definition as_learner (s : t) : Learner.t :=
  Learner.mk (network_uid s) (quorum_size s) (proposals s) (acceptors s)
    (final_value s) (final_acceptors s) (final_proposal_id s).

Definition with_learner (l : Learner.t) (s : t) : t :=
  mk (Learner.network_uid l) (Learner.quorum_size l) (leader s)
     (proposed_value s) (proposal_id s)
     (highest_proposal_id s) (highest_accepted_id s)
     (promises_received s) (nacks_received s)
     (current_prepare_msg s) (current_accept_msg s)
     (promised_id s) (accepted_id s) (accepted_value s)
     (Learner.proposals l) (Learner.acceptors l) (Learner.final_value l)
     (Learner.final_acceptors l) (Learner.final_proposal_id l).

(** [PaxosInstance.__init__]: the three base initialisers in turn. *)
Definition init (network_uid : string) (quorum_size : Z)
    (promised_id accepted_id : option ProposalID) (accepted_value : option string) : t :=
  let p := Proposer.init network_uid quorum_size in
  let a := Acceptor.init network_uid promised_id accepted_id accepted_value in
  let l := Learner.init network_uid quorum_size in
  mk network_uid quorum_size (Proposer.leader p) (Proposer.proposed_value p)
     (Proposer.proposal_id p) (Proposer.highest_proposal_id p)
     (Proposer.highest_accepted_id p) (Proposer.promises_received p)
     (Proposer.nacks_received p) (Proposer.current_prepare_msg p)
     (Proposer.current_accept_msg p)
     (Acceptor.promised_id a) (Acceptor.accepted_id a) (Acceptor.accepted_value a)
     (Learner.proposals l) (Learner.acceptors l) (Learner.final_value l)
     (Learner.final_acceptors l) (Learner.final_proposal_id l).

(** Inherited from [Proposer]. *)
Definition observe_proposal : t -> option ProposalID -> t * outcome :=
  inherit as_proposer with_proposer Proposer.observe_proposal.

Definition receive_nack : t -> Nack.t -> t * outcome :=
  inherit as_proposer with_proposer Proposer.receive_nack.

Definition receive_promise : t -> Promise.t -> t * outcome :=
  inherit as_proposer with_proposer Proposer.receive_promise.

Definition prepare (self : t) : t * Prepare.t :=
  let '(p, msg) := Proposer.prepare (as_proposer self) in (with_proposer p self, msg).

Definition propose_value (self : t) (value : string) : t * option Accept.t :=
  let '(p, msg) := Proposer.propose_value (as_proposer self) value in
  (with_proposer p self, msg).

(** Inherited from [Learner]. *)
Definition receive_accepted : t -> Accepted.t -> t * outcome :=
  inherit as_learner with_learner Learner.receive_accepted.

(** The two overrides; [super(PaxosInstance, self)] resolves to
    [Acceptor], the first base class that defines the method. *)
Definition receive_prepare (self : t) (msg : Prepare.t) : t * outcome :=
  and_then (observe_proposal self (Some (Prepare.proposal_id msg))) (fun self =>
  inherit as_acceptor with_acceptor Acceptor.receive_prepare self msg).

Definition receive_accept (self : t) (msg : Accept.t) : t * outcome :=
  and_then (observe_proposal self (Some (Accept.proposal_id msg))) (fun self =>
  inherit as_acceptor with_acceptor Acceptor.receive_accept self msg).

(** Method resolution order: the class itself, then [Proposer],
    [Acceptor], [Learner]. *)
Definition methods : list (string * handler t) :=
  [ ("receive_prepare", on_prepare receive_prepare);
    ("receive_accept", on_accept receive_accept) ]
  ++ map (fun '(n, h) => (n, inherit as_proposer with_proposer h)) Proposer.methods
  ++ map (fun '(n, h) => (n, inherit as_acceptor with_acceptor h)) Acceptor.methods
  ++ map (fun '(n, h) => (n, inherit as_learner with_learner h)) Learner.methods.

Definition receive : handler t := receive methods.
End PaxosInstance.

(** * Properties *)

(** ** Predicates used in the statements *)

(** The order in which the properties speak of an attribute that holds
    a proposal id or nothing: ids in tuple order, and a missing id below
    every id, so that "has not decreased" also covers an attribute that
    starts out as [None].  On two ids it is the comparison the code
    makes. *)
Definition py_compare (a b : option ProposalID) : comparison :=
  match a, b with
  | None, None => Eq
  | None, Some _ => Lt
  | Some _, None => Gt
  | Some x, Some y => ProposalID_compare x y
  end.

Definition py_gt (a b : option ProposalID) : bool :=
  match py_compare a b with Gt => true | _ => false end.

Definition py_ge (a b : option ProposalID) : bool :=
  match py_compare a b with Lt => false | _ => true end.

Definition py_le (a b : option ProposalID) : bool :=
  match py_compare a b with Gt => false | _ => true end.

(** The relation the acceptor attributes are claimed to keep:
    [accepted_id <= promised_id] whenever something was accepted, and a
    value is stored exactly when an id is. *)
Definition acceptor_consistent (a : Acceptor.t) : Prop :=
  (forall aid, Acceptor.accepted_id a = Some aid ->
               py_le (Some aid) (Acceptor.promised_id a) = true) /\
  (is_Some (Acceptor.accepted_value a) <-> is_Some (Acceptor.accepted_id a)).


(** A class supports a message when it has the [receive_*] attribute
    that [MessageHandler.receive] looks up for the message's class. *)
Definition supports {S : Type} (methods : list (string * handler S))
    (msg : PaxosMessage) : bool :=
  match getattr methods ("receive_" +:+ lower (class_name msg)) with
  | Some _ => true
  | None => false
  end.

(** The sum of [retain_count] over the entries of [proposals]. *)
Definition retained (props : gmap ProposalID ProposalStatus.t) : Z :=
  map_fold (fun _ ps acc => ProposalStatus.retain_count ps + acc) 0 props.

(** The bookkeeping of an unresolved learner as it is claimed to be: each
    entry retains as many votes as it lists acceptors, and the entries
    together retain one vote per acceptor heard from. *)
Definition votes_counted (props : gmap ProposalID ProposalStatus.t)
    (accs : gmap string ProposalID) : Prop :=
  (forall pid ps, props !! pid = Some ps ->
     ProposalStatus.retain_count ps = Z.of_nat (size (ProposalStatus.acceptors ps))) /\
  retained props = Z.of_nat (size accs).

(** What ties the two maps together: an acceptor's last vote is for [pid]
    exactly when the entry of [pid] lists the acceptor. *)
Definition votes_linked (props : gmap ProposalID ProposalStatus.t)
    (accs : gmap string ProposalID) : Prop :=
  forall u pid,
    accs !! u = Some pid <->
    exists ps, props !! pid = Some ps /\ u ∈ ProposalStatus.acceptors ps.

Definition learner_bookkeeping (l : Learner.t) : Prop :=
  Learner.final_value l = None /\
  exists props accs,
    Learner.proposals l = Some props /\
    Learner.acceptors l = Some accs /\
    votes_counted props accs /\
    votes_linked props accs.

(** The message a call returned, for feeding one role's reply to
    another; a call that returned nothing or raised yields a [Resolution]
    no role handles. *)
Definition reply_of {S : Type} (r : S * outcome) : PaxosMessage :=
  match snd r with
  | Return (Some msg) => msg
  | _ => MResolution (Resolution.mk "" "")
  end.

(** What holds of a proposer at any time: its proposal id bears its own
    uid and is at most the highest id it knows of, and it believes itself
    leader only while holding exactly a quorum of promises. *)
Definition proposer_sound (p : Proposer.t) : Prop :=
  uid (Proposer.proposal_id p) = Proposer.network_uid p /\
  py_le (Some (Proposer.proposal_id p)) (Some (Proposer.highest_proposal_id p)) = true /\
  (Proposer.leader p = true ->
   exists promises,
     Proposer.promises_received p = Some promises /\
     Z.of_nat (size promises) = Proposer.quorum_size p).

(** What a proposer never loses: its identity, the ids it has seen and a
    value once it has one. *)
Definition proposer_grows (p p' : Proposer.t) : Prop :=
  Proposer.network_uid p' = Proposer.network_uid p /\
  Proposer.quorum_size p' = Proposer.quorum_size p /\
  py_le (Some (Proposer.highest_proposal_id p))
        (Some (Proposer.highest_proposal_id p')) = true /\
  py_le (Proposer.highest_accepted_id p) (Proposer.highest_accepted_id p') = true /\
  (is_Some (Proposer.proposed_value p) -> is_Some (Proposer.proposed_value p')).

(** What [receive_promise] does with a promise it counts when both
    [msg.last_accepted_id] and [highest_accepted_id] are ids, [last] and
    [highest]; [h] is [highest_proposal_id] after [observe_proposal] and
    [promises] the promises held so far. *)
Definition promise_counted (p : Proposer.t) (m : Promise.t) (h : ProposalID)
    (promises : gset string) (last highest : ProposalID) : Proposer.t * outcome :=
  let adopt := ProposalID_gt last highest in
  let value' :=
    if adopt then
      match Promise.last_accepted_value m with
      | Some v => Some v
      | None => Proposer.proposed_value p
      end
    else Proposer.proposed_value p in
  let promises' := {[ Promise.from_uid m ]} ∪ promises in
  let quorum := Z.of_nat (size promises') =? Proposer.quorum_size p in
  let accept :=
    if quorum then
      match value' with
      | Some v => Some (Accept.mk (Proposer.network_uid p) (Proposer.proposal_id p) v)
      | None => None
      end
    else None in
  (Proposer.mk (Proposer.network_uid p) (Proposer.quorum_size p) quorum value'
     (Proposer.proposal_id p) h
     (Some (if adopt then last else highest))
     (Some promises') (Proposer.nacks_received p)
     (Proposer.current_prepare_msg p)
     (match accept with
      | Some a => Some a
      | None => Proposer.current_accept_msg p
      end),
   Return (MAccept <$> accept)).

(** A proposer that has never got past a promise: it is not leader, has
    recorded no accepted id and has sent no [Accept]. *)
Definition proposer_stalled (p : Proposer.t) : Prop :=
  Proposer.leader p = false /\
  Proposer.highest_accepted_id p = None /\
  Proposer.current_accept_msg p = None.

(** The value of the first [propose_value] among the calls, if any. *)
Fixpoint first_proposed (calls : list Proposer.call) : option string :=
  match calls with
  | [] => None
  | Proposer.CallProposeValue value :: _ => Some value
  | _ :: rest => first_proposed rest
  end.

(** What an acceptor holds as accepted, given what it held at first and
    the messages [sent] to it since: the pair it held, or the id and
    value of one of the [Accept]s. *)
Definition accepted_from (sent : PaxosMessage -> Prop) (a0 a : Acceptor.t) : Prop :=
  (Acceptor.accepted_id a = Acceptor.accepted_id a0 /\
   Acceptor.accepted_value a = Acceptor.accepted_value a0) \/
  exists from i v,
    Acceptor.accepted_id a = Some i /\
    Acceptor.accepted_value a = Some v /\
    sent (MAccept (Accept.mk from i v)).


(** * Proofs *)

(** ** The ordering of proposal ids *)

Section Ordering.

Lemma ascii_compare_refl (c : ascii) : Ascii.compare c c = Eq.
Proof. unfold Ascii.compare. apply N.compare_refl. Qed.

Lemma ascii_compare_lt_trans (a b c : ascii) :
  Ascii.compare a b = Lt -> Ascii.compare b c = Lt -> Ascii.compare a c = Lt.
Proof. unfold Ascii.compare. rewrite !N.compare_lt_iff. lia. Qed.

Lemma string_compare_refl (s : string) : String.compare s s = Eq.
Proof.
  induction s as [|c s IH]; simpl; [done|]. by rewrite ascii_compare_refl.
Qed.

Lemma string_compare_lt_trans (a b c : string) :
  String.compare a b = Lt -> String.compare b c = Lt -> String.compare a c = Lt.
Proof.
  revert b c. induction a as [|x a IH]; intros [|y b] [|z c]; simpl; try done.
  destruct (Ascii.compare x y) eqn:Hxy; try done.
  - apply Ascii.compare_eq_iff in Hxy as ->.
    destruct (Ascii.compare y z); try done. apply IH.
  - destruct (Ascii.compare y z) eqn:Hyz; try done.
    + apply Ascii.compare_eq_iff in Hyz as <-. by rewrite Hxy.
    + by rewrite (ascii_compare_lt_trans x y z).
Qed.

Lemma ProposalID_compare_refl (a : ProposalID) : ProposalID_compare a a = Eq.
Proof.
  unfold ProposalID_compare. by rewrite Z.compare_refl, string_compare_refl.
Qed.

Lemma ProposalID_compare_eq (a b : ProposalID) :
  ProposalID_compare a b = Eq -> a = b.
Proof.
  destruct a as [n u], b as [m v]. unfold ProposalID_compare. simpl.
  destruct (Z.compare n m) eqn:Hc; try done.
  apply Z.compare_eq in Hc as ->.
  by intros ->%String.compare_eq_iff.
Qed.

Lemma ProposalID_compare_antisym (a b : ProposalID) :
  ProposalID_compare a b = CompOpp (ProposalID_compare b a).
Proof.
  unfold ProposalID_compare. rewrite (Z.compare_antisym (number a) (number b)).
  destruct (Z.compare (number a) (number b)); simpl; try done.
  apply String.compare_antisym.
Qed.

Lemma ProposalID_compare_lt_trans (a b c : ProposalID) :
  ProposalID_compare a b = Lt -> ProposalID_compare b c = Lt ->
  ProposalID_compare a c = Lt.
Proof.
  unfold ProposalID_compare.
  destruct (Z.compare_spec (number a) (number b)) as [Hab|Hab|Hab]; try done;
    destruct (Z.compare_spec (number b) (number c)) as [Hbc|Hbc|Hbc]; try done;
    destruct (Z.compare_spec (number a) (number c)) as [Hac|Hac|Hac];
    try lia; try done.
  apply string_compare_lt_trans.
Qed.

Lemma py_compare_refl (a : option ProposalID) : py_compare a a = Eq.
Proof. destruct a; simpl; [apply ProposalID_compare_refl | done]. Qed.

Lemma py_compare_eq (a b : option ProposalID) : py_compare a b = Eq -> a = b.
Proof.
  destruct a, b; simpl; try done. by intros ->%ProposalID_compare_eq.
Qed.

Lemma py_compare_antisym (a b : option ProposalID) :
  py_compare a b = CompOpp (py_compare b a).
Proof. destruct a, b; simpl; try done. apply ProposalID_compare_antisym. Qed.

Lemma py_compare_lt_trans (a b c : option ProposalID) :
  py_compare a b = Lt -> py_compare b c = Lt -> py_compare a c = Lt.
Proof.
  destruct a, b, c; simpl; try done. apply ProposalID_compare_lt_trans.
Qed.

Lemma py_le_refl (a : option ProposalID) : py_le a a = true.
Proof. unfold py_le. by rewrite py_compare_refl. Qed.

Lemma py_ge_le (a b : option ProposalID) : py_ge a b = py_le b a.
Proof.
  unfold py_ge, py_le. rewrite (py_compare_antisym b a).
  by destruct (py_compare a b).
Qed.

Lemma py_gt_le (a b : option ProposalID) : py_gt a b = negb (py_le a b).
Proof. unfold py_gt, py_le. by destruct (py_compare a b). Qed.

Lemma py_le_trans (a b c : option ProposalID) :
  py_le a b = true -> py_le b c = true -> py_le a c = true.
Proof.
  unfold py_le.
  destruct (py_compare a b) eqn:Hab; try done;
    destruct (py_compare b c) eqn:Hbc; try done; intros _ _.
  - apply py_compare_eq in Hab as ->. by rewrite Hbc.
  - apply py_compare_eq in Hab as ->. by rewrite Hbc.
  - apply py_compare_eq in Hbc as <-. by rewrite Hab.
  - by rewrite (py_compare_lt_trans a b c).
Qed.

Lemma py_le_total (a b : option ProposalID) :
  py_le a b = false -> py_le b a = true.
Proof.
  unfold py_le. rewrite (py_compare_antisym b a).
  by destruct (py_compare a b).
Qed.

Lemma py_le_None (a : option ProposalID) : py_le None a = true.
Proof. by destruct a. Qed.

Lemma py_gt_lt (a b : option ProposalID) : py_gt a b = true <-> py_compare b a = Lt.
Proof.
  unfold py_gt. rewrite (py_compare_antisym b a).
  destruct (py_compare a b); simpl; split; congruence.
Qed.

Lemma py_le_lt_trans (a b c : option ProposalID) :
  py_le a b = true -> py_compare b c = Lt -> py_compare a c = Lt.
Proof.
  unfold py_le. destruct (py_compare a b) eqn:Hab; try done; intros _ Hbc.
  - by apply py_compare_eq in Hab as ->.
  - by apply (py_compare_lt_trans a b c).
Qed.

Lemma py_lt_le (a b : option ProposalID) : py_compare a b = Lt -> py_le a b = true.
Proof. unfold py_le. by intros ->. Qed.

Lemma py_lt_ne (a b : ProposalID) :
  py_compare (Some a) (Some b) = Lt -> a <> b.
Proof. intros Hlt ->. by rewrite py_compare_refl in Hlt. Qed.

Lemma py_le_number (a b : ProposalID) :
  py_le (Some a) (Some b) = true -> number a <= number b.
Proof.
  unfold py_le. simpl. unfold ProposalID_compare.
  destruct (Z.compare_spec (number a) (number b)); try done; lia.
Qed.

Lemma next_number_greater (h : ProposalID) (u : string) :
  py_compare (Some h) (Some (mkProposalID (number h + 1) u)) = Lt.
Proof.
  simpl. unfold ProposalID_compare. simpl.
  destruct (Z.compare_spec (number h) (number h + 1)); try done; lia.
Qed.

(** The comparisons the code makes between two ids, in terms of the
    order of the statements. *)
Lemma ProposalID_ge_le (a b : ProposalID) :
  ProposalID_ge a b = py_le (Some b) (Some a).
Proof. by rewrite <- py_ge_le. Qed.

Lemma ProposalID_gt_le (a b : ProposalID) :
  ProposalID_gt a b = negb (py_le (Some a) (Some b)).
Proof. by rewrite <- py_gt_le. Qed.

Lemma ProposalID_le_le (a b : ProposalID) :
  ProposalID_le a b = py_le (Some a) (Some b).
Proof. done. Qed.

End Ordering.

(** ** Acceptor *)

Lemma acceptor_init_consistent (u : string) (promised : option ProposalID) :
  acceptor_consistent (Acceptor.init u promised None None).
Proof.
  split; simpl; [done|]. split; intros [? ?]; done.
Qed.

Lemma acceptor_receive_cases (a : Acceptor.t) (msg : PaxosMessage) :
  Acceptor.receive a msg =
  match msg with
  | MPrepare m => Acceptor.receive_prepare a m
  | MAccept m => Acceptor.receive_accept a m
  | _ => (a, Raise InvalidMessageError)
  end.
Proof. by destruct msg. Qed.

(** An acceptor that holds no promise cannot compare: both handlers
    raise and leave it as it was. *)
Lemma acceptor_receive_prepare_unpromised (a : Acceptor.t) (m : Prepare.t) :
  Acceptor.promised_id a = None ->
  Acceptor.receive_prepare a m = (a, Raise TypeError).
Proof. intros Hp. unfold Acceptor.receive_prepare. by rewrite Hp. Qed.

Lemma acceptor_receive_accept_unpromised (a : Acceptor.t) (m : Accept.t) :
  Acceptor.promised_id a = None ->
  Acceptor.receive_accept a m = (a, Raise TypeError).
Proof. intros Hp. unfold Acceptor.receive_accept. by rewrite Hp. Qed.

(** The two branches of each handler on an acceptor that holds a
    promise. *)
Lemma acceptor_receive_prepare_promised (a : Acceptor.t) (m : Prepare.t)
    (promised : ProposalID) :
  Acceptor.promised_id a = Some promised ->
  Acceptor.receive_prepare a m =
  if py_le (Some promised) (Some (Prepare.proposal_id m)) then
    (Acceptor.mk (Acceptor.network_uid a) (Some (Prepare.proposal_id m))
       (Acceptor.accepted_id a) (Acceptor.accepted_value a),
     Return (Some (MPromise
       (Promise.mk (Acceptor.network_uid a) (Prepare.from_uid m)
          (Prepare.proposal_id m) (Acceptor.accepted_id a)
          (Acceptor.accepted_value a)))))
  else
    (a, Return (Some (MNack
       (Nack.mk (Acceptor.network_uid a) (Prepare.from_uid m)
          (Prepare.proposal_id m) (Some promised))))).
Proof.
  intros Hp. unfold Acceptor.receive_prepare. rewrite Hp, ProposalID_ge_le.
  by destruct (py_le _ _).
Qed.

Lemma acceptor_receive_accept_promised (a : Acceptor.t) (m : Accept.t)
    (promised : ProposalID) :
  Acceptor.promised_id a = Some promised ->
  Acceptor.receive_accept a m =
  if py_le (Some promised) (Some (Accept.proposal_id m)) then
    (Acceptor.mk (Acceptor.network_uid a) (Some (Accept.proposal_id m))
       (Some (Accept.proposal_id m)) (Some (Accept.proposal_value m)),
     Return (Some (MAccepted
       (Accepted.mk (Acceptor.network_uid a) (Accept.proposal_id m)
          (Accept.proposal_value m)))))
  else
    (a, Return (Some (MNack
       (Nack.mk (Acceptor.network_uid a) (Accept.from_uid m)
          (Accept.proposal_id m) (Some promised))))).
Proof.
  intros Hp. unfold Acceptor.receive_accept. rewrite Hp, ProposalID_ge_le.
  by destruct (py_le _ _).
Qed.

Lemma acceptor_receive_prepare_step (a : Acceptor.t) (m : Prepare.t) :
  let a' := fst (Acceptor.receive_prepare a m) in
  py_le (Acceptor.promised_id a) (Acceptor.promised_id a') = true /\
  (acceptor_consistent a ->
   py_le (Acceptor.accepted_id a) (Acceptor.accepted_id a') = true /\
   acceptor_consistent a').
Proof.
  destruct (Acceptor.promised_id a) as [promised|] eqn:Hp.
  2:{ rewrite (acceptor_receive_prepare_unpromised a m Hp). cbn [fst]. rewrite Hp.
      split; [done|]. intros Hc. split; [apply py_le_refl | done]. }
  rewrite (acceptor_receive_prepare_promised a m promised Hp).
  destruct (py_le (Some promised) (Some (Prepare.proposal_id m))) eqn:Hle; cbn [fst].
  - split; [done|]. intros [Hacc Hval]. split; [apply py_le_refl|].
    split; [|done]. cbn. intros aid Haid.
    eapply py_le_trans; [by apply Hacc|]. by rewrite Hp.
  - rewrite Hp. split; [apply py_le_refl|].
    intros Hc. split; [apply py_le_refl | done].
Qed.

Lemma acceptor_receive_accept_step (a : Acceptor.t) (m : Accept.t) :
  let a' := fst (Acceptor.receive_accept a m) in
  py_le (Acceptor.promised_id a) (Acceptor.promised_id a') = true /\
  (acceptor_consistent a ->
   py_le (Acceptor.accepted_id a) (Acceptor.accepted_id a') = true /\
   acceptor_consistent a').
Proof.
  destruct (Acceptor.promised_id a) as [promised|] eqn:Hp.
  2:{ rewrite (acceptor_receive_accept_unpromised a m Hp). cbn [fst]. rewrite Hp.
      split; [done|]. intros Hc. split; [apply py_le_refl | done]. }
  rewrite (acceptor_receive_accept_promised a m promised Hp).
  destruct (py_le (Some promised) (Some (Accept.proposal_id m))) eqn:Hle; cbn [fst].
  - split; [done|]. intros [Hacc Hval]. split.
    + destruct (Acceptor.accepted_id a) as [aid|] eqn:Haid; [|done].
      eapply py_le_trans; [by apply Hacc|]. by rewrite Hp.
    + split; cbn.
      * intros aid [= <-]. apply py_le_refl.
      * split; intros _; eauto.
  - rewrite Hp. split; [apply py_le_refl|].
    intros Hc. split; [apply py_le_refl | done].
Qed.

(** One delivered message: both ids can only grow, and the relation
    between the attributes survives. *)
Lemma acceptor_receive_step (a : Acceptor.t) (msg : PaxosMessage) :
  let a' := fst (Acceptor.receive a msg) in
  py_le (Acceptor.promised_id a) (Acceptor.promised_id a') = true /\
  (acceptor_consistent a ->
   py_le (Acceptor.accepted_id a) (Acceptor.accepted_id a') = true /\
   acceptor_consistent a').
Proof.
  rewrite acceptor_receive_cases.
  destruct msg as [m|m|m|m|m|m];
    try (split; [apply py_le_refl | intros Hc; split; [apply py_le_refl | done]]).
  - apply acceptor_receive_prepare_step.
  - apply acceptor_receive_accept_step.
Qed.

Lemma acceptor_run_app (a : Acceptor.t) (ms1 ms2 : list PaxosMessage) :
  Acceptor.run a (ms1 ++ ms2) = Acceptor.run (Acceptor.run a ms1) ms2.
Proof. revert a. induction ms1 as [|m ms1 IH]; intros a; simpl; [done | apply IH]. Qed.

Lemma acceptor_run_monotone (a : Acceptor.t) (ms : list PaxosMessage) :
  py_le (Acceptor.promised_id a) (Acceptor.promised_id (Acceptor.run a ms)) = true /\
  (acceptor_consistent a ->
   py_le (Acceptor.accepted_id a) (Acceptor.accepted_id (Acceptor.run a ms)) = true /\
   acceptor_consistent (Acceptor.run a ms)).
Proof.
  revert a. induction ms as [|m ms IH]; intros a; simpl.
  - split; [apply py_le_refl | intros Hc; split; [apply py_le_refl | done]].
  - destruct (acceptor_receive_step a m) as [Hp Hrest].
    destruct (IH (fst (Acceptor.receive a m))) as [Hp' Hrest'].
    split; [by eapply py_le_trans|].
    intros Hc. destruct (Hrest Hc) as [Ha Hc1]. destruct (Hrest' Hc1) as [Ha' Hc2].
    split; [by eapply py_le_trans | done].
Qed.

(** C3. Deliver any sequence of messages to an acceptor and then any
    further sequence.  Between the two points [promised_id] has not
    decreased (a missing id counting as the smallest).  If the acceptor
    started out with consistent attributes, as one constructed with no
    accepted id and value or one restored from what a consistent acceptor
    persisted does, then [accepted_id] has not decreased either, and at
    the later point [accepted_id], when present, is at most [promised_id]
    and [accepted_value] is present exactly when [accepted_id] is.  A
    call that raises, as every [Prepare] and [Accept] does on an acceptor
    that holds no promise, leaves all three attributes as they were. *)
Theorem acceptor_ids_monotone_and_consistent
    (a : Acceptor.t) (ms1 ms2 : list PaxosMessage) :
  let a1 := Acceptor.run a ms1 in
  let a2 := Acceptor.run a1 ms2 in
  py_le (Acceptor.promised_id a1) (Acceptor.promised_id a2) = true /\
  (acceptor_consistent a ->
   py_le (Acceptor.accepted_id a1) (Acceptor.accepted_id a2) = true /\
   (forall aid, Acceptor.accepted_id a2 = Some aid ->
                py_le (Some aid) (Acceptor.promised_id a2) = true) /\
   (is_Some (Acceptor.accepted_value a2) <-> is_Some (Acceptor.accepted_id a2))).
Proof.
  intros a1 a2.
  destruct (acceptor_run_monotone a ms1) as [_ H1].
  destruct (acceptor_run_monotone a1 ms2) as [Hp H2].
  split; [done|]. intros Hc.
  destruct (H1 Hc) as [_ Hc1]. destruct (H2 Hc1) as [Ha Hc2].
  destruct Hc2 as [Hle Hiff]. done.
Qed.

Lemma acceptor_ids_monotone_and_consistent_witness :
  let a := Acceptor.init "X" (Some (mkProposalID 1 "A")) None None in
  let ms1 := [MPrepare (Prepare.mk "A" (mkProposalID 1 "A"));
              MAccept (Accept.mk "A" (mkProposalID 1 "A") "v1")] in
  let ms2 := [MPrepare (Prepare.mk "B" (mkProposalID 2 "B"));
              MAccept (Accept.mk "A" (mkProposalID 1 "A") "v0");
              MAccept (Accept.mk "B" (mkProposalID 2 "B") "v1")] in
  let a1 := Acceptor.run a ms1 in
  let a2 := Acceptor.run a1 ms2 in
  acceptor_consistent a /\
  Acceptor.accepted_id a1 = Some (mkProposalID 1 "A") /\
  Acceptor.accepted_id a2 = Some (mkProposalID 2 "B") /\
  py_le (Acceptor.promised_id a1) (Acceptor.promised_id a2) = true /\
  py_le (Acceptor.accepted_id a1) (Acceptor.accepted_id a2) = true /\
  (forall aid, Acceptor.accepted_id a2 = Some aid ->
               py_le (Some aid) (Acceptor.promised_id a2) = true) /\
  (is_Some (Acceptor.accepted_value a2) <-> is_Some (Acceptor.accepted_id a2)).
Proof.
  intros a ms1 ms2 a1 a2.
  split; [apply acceptor_init_consistent|].
  split; [reflexivity|]. split; [reflexivity|].
  destruct (acceptor_ids_monotone_and_consistent a ms1 ms2) as [Hp Hrest].
  split; [exact Hp|]. apply Hrest, acceptor_init_consistent.
Defined.

(** C10. [receive_prepare] leaves [accepted_id] and [accepted_value] as
    they were, whichever branch it takes; and a call of [receive_prepare]
    or [receive_accept] that answers with a [Nack] leaves the whole
    acceptor as it was. *)
Theorem acceptor_frame (a : Acceptor.t) :
  (forall m : Prepare.t,
     Acceptor.accepted_id (fst (Acceptor.receive_prepare a m)) = Acceptor.accepted_id a /\
     Acceptor.accepted_value (fst (Acceptor.receive_prepare a m))
       = Acceptor.accepted_value a) /\
  (forall (m : Prepare.t) (n : Nack.t),
     snd (Acceptor.receive_prepare a m) = Return (Some (MNack n)) ->
     fst (Acceptor.receive_prepare a m) = a) /\
  (forall (m : Accept.t) (n : Nack.t),
     snd (Acceptor.receive_accept a m) = Return (Some (MNack n)) ->
     fst (Acceptor.receive_accept a m) = a).
Proof.
  split; [|split].
  - intros m. unfold Acceptor.receive_prepare.
    destruct (Acceptor.promised_id a); [|done]. by destruct (ProposalID_ge _ _).
  - intros m n. unfold Acceptor.receive_prepare.
    destruct (Acceptor.promised_id a); [|done]. by destruct (ProposalID_ge _ _).
  - intros m n. unfold Acceptor.receive_accept.
    destruct (Acceptor.promised_id a); [|done]. by destruct (ProposalID_ge _ _).
Qed.

Lemma acceptor_frame_witness :
  let a := Acceptor.init "X" (Some (mkProposalID 5 "Z")) None None in
  let p := Prepare.mk "A" (mkProposalID 3 "A") in
  let c := Accept.mk "A" (mkProposalID 3 "A") "v" in
  snd (Acceptor.receive_prepare a p)
    = Return (Some (MNack (Nack.mk "X" "A" (mkProposalID 3 "A")
                                   (Some (mkProposalID 5 "Z"))))) /\
  fst (Acceptor.receive_prepare a p) = a /\
  fst (Acceptor.receive_accept a c) = a.
Proof.
  intros a p c. split; [reflexivity|].
  destruct (acceptor_frame a) as (_ & Hp & Ha).
  split.
  - apply (Hp p (Nack.mk "X" "A" (mkProposalID 3 "A") (Some (mkProposalID 5 "Z")))).
    reflexivity.
  - apply (Ha c (Nack.mk "X" "A" (mkProposalID 3 "A") (Some (mkProposalID 5 "Z")))).
    reflexivity.
Defined.

(** ** Proposer: what each call does to the state *)


Lemma prepare_proposal_id (p : Proposer.t) :
  Prepare.proposal_id (snd (Proposer.prepare p))
  = mkProposalID (number (Proposer.highest_proposal_id p) + 1) (Proposer.network_uid p) /\
  Proposer.proposal_id (fst (Proposer.prepare p))
  = Prepare.proposal_id (snd (Proposer.prepare p)) /\
  Proposer.highest_proposal_id (fst (Proposer.prepare p))
  = Prepare.proposal_id (snd (Proposer.prepare p)).
Proof. done. Qed.

(** [observe_proposal] cannot compare [None] with [highest_proposal_id]. *)
Lemma observe_proposal_absent (p : Proposer.t) :
  Proposer.observe_proposal p None = (p, Raise TypeError).
Proof. done. Qed.

(** Handed an id, [observe_proposal] returns and only ever touches
    [highest_proposal_id]. *)
Lemma observe_proposal_frame (p : Proposer.t) (pid : ProposalID) :
  exists h,
    Proposer.observe_proposal p (Some pid)
      = (Proposer.set_highest_proposal_id h p, Return None) /\
    (h = Proposer.highest_proposal_id p \/ h = pid).
Proof.
  unfold Proposer.observe_proposal. destruct (ProposalID_gt _ _).
  - exists pid. by split; [|right].
  - exists (Proposer.highest_proposal_id p). split; [by destruct p | by left].
Qed.

Lemma observe_proposal_highest (p : Proposer.t) (pid : ProposalID) :
  let p' := fst (Proposer.observe_proposal p (Some pid)) in
  py_le (Some pid) (Some (Proposer.highest_proposal_id p')) = true /\
  py_le (Some (Proposer.highest_proposal_id p))
        (Some (Proposer.highest_proposal_id p')) = true.
Proof.
  unfold Proposer.observe_proposal. rewrite ProposalID_gt_le.
  destruct (py_le (Some pid) (Some (Proposer.highest_proposal_id p))) eqn:Hle; simpl.
  - split; [done | apply py_le_refl].
  - split; [apply py_le_refl | by apply py_le_total].
Qed.

Lemma observe_proposal_noop (p : Proposer.t) (pid : ProposalID) :
  py_le (Some pid) (Some (Proposer.highest_proposal_id p)) = true ->
  Proposer.observe_proposal p (Some pid) = (p, Return None).
Proof.
  intros Hle. unfold Proposer.observe_proposal. by rewrite ProposalID_gt_le, Hle.
Qed.

Lemma observe_proposal_idem (p : Proposer.t) (pid : ProposalID) :
  Proposer.observe_proposal (fst (Proposer.observe_proposal p (Some pid))) (Some pid)
  = (fst (Proposer.observe_proposal p (Some pid)), Return None).
Proof.
  apply observe_proposal_noop. apply (observe_proposal_highest p pid).
Qed.

Lemma proposer_receive_cases (p : Proposer.t) (msg : PaxosMessage) :
  Proposer.receive p msg =
  match msg with
  | MNack m => Proposer.receive_nack p m
  | MPromise m => Proposer.receive_promise p m
  | _ => (p, Raise InvalidMessageError)
  end.
Proof. by destruct msg. Qed.

(** The ways [receive_promise] can end: the promise is only observed; or
    it is counted, and then the comparison of the accepted ids raises
    unless both are present. *)
Lemma receive_promise_shape (p : Proposer.t) (m : Promise.t) :
  exists h,
    Proposer.observe_proposal p (Some (Promise.proposal_id m))
      = (Proposer.set_highest_proposal_id h p, Return None) /\
    ((fst (Proposer.receive_promise p m) = Proposer.set_highest_proposal_id h p /\
      (snd (Proposer.receive_promise p m) = Return None \/
       (Proposer.promises_received p = None /\
        snd (Proposer.receive_promise p m) = Raise TypeError))) \/
     (Proposer.leader p = false /\
      Promise.proposal_id m = Proposer.proposal_id p /\
      exists promises,
        Proposer.promises_received p = Some promises /\
        (Promise.from_uid m ∉ promises) /\
        (((Promise.last_accepted_id m = None \/ Proposer.highest_accepted_id p = None) /\
          Proposer.receive_promise p m
          = (Proposer.set_promises_received
               (Some ({[ Promise.from_uid m ]} ∪ promises))
               (Proposer.set_highest_proposal_id h p),
             Raise TypeError)) \/
         (exists last highest,
            Promise.last_accepted_id m = Some last /\
            Proposer.highest_accepted_id p = Some highest /\
            Proposer.receive_promise p m = promise_counted p m h promises last highest)))).
Proof.
  destruct (observe_proposal_frame p (Promise.proposal_id m)) as (h & Hobs & _).
  exists h. split; [done|].
  unfold Proposer.receive_promise. rewrite Hobs. cbn [and_then].
  destruct p as [nu q ld pv pid hp ha pr nk cp ca]. simpl.
  destruct ld; simpl; [left; eauto|].
  case_bool_decide as Hpid; simpl; [|left; eauto].
  destruct pr as [promises|]; simpl; [|left; eauto].
  case_bool_decide as Hin; simpl; [|left; eauto].
  right. split; [done|]. split; [done|]. exists promises. split; [done|].
  split; [done|].
  destruct (Promise.last_accepted_id m) as [last|] eqn:Hlast; [|left; eauto].
  destruct ha as [highest|]; [|left; eauto].
  right. exists last, highest. split; [done|]. split; [done|].
  unfold promise_counted. simpl.
  destruct (ProposalID_gt last highest);
    destruct (Promise.last_accepted_value m) as [v|]; simpl;
    destruct (Z.of_nat (size ({[Promise.from_uid m]} ∪ promises)) =? q); simpl;
    destruct pv as [w|]; simpl; by subst.
Qed.

(** [receive_nack] stops at once on a [Nack] that reports no promised
    id. *)
Lemma receive_nack_without_promised_id (p : Proposer.t) (m : Nack.t) :
  Nack.promised_proposal_id m = None ->
  Proposer.receive_nack p m = (p, Raise TypeError).
Proof. intros Hn. unfold Proposer.receive_nack. by rewrite Hn. Qed.

(** The three ways [receive_nack] can end on a [Nack] that reports a
    promised id. *)
Lemma receive_nack_shape (p : Proposer.t) (m : Nack.t) (promised : ProposalID) :
  Nack.promised_proposal_id m = Some promised ->
  exists h,
    Proposer.observe_proposal p (Some promised)
      = (Proposer.set_highest_proposal_id h p, Return None) /\
    (Proposer.receive_nack p m
       = (Proposer.set_highest_proposal_id h p, Return None) \/
     exists nacks,
       Proposer.nacks_received p = Some nacks /\
       Nack.proposal_id m = Proposer.proposal_id p /\
       (Proposer.receive_nack p m
        = (Proposer.set_nacks_received (Some ({[ Nack.from_uid m ]} ∪ nacks))
             (Proposer.set_highest_proposal_id h p),
           Return None) \/
        Proposer.receive_nack p m
        = (fst (Proposer.prepare
                  (Proposer.set_nacks_received (Some ({[ Nack.from_uid m ]} ∪ nacks))
                     (Proposer.set_highest_proposal_id h p))),
           Return (Some (MPrepare (snd (Proposer.prepare
                  (Proposer.set_nacks_received (Some ({[ Nack.from_uid m ]} ∪ nacks))
                     (Proposer.set_highest_proposal_id h p))))))))).
Proof.
  intros Hn.
  destruct (observe_proposal_frame p promised) as (h & Hobs & _).
  exists h. split; [done|].
  unfold Proposer.receive_nack. rewrite Hn, Hobs. cbn [and_then].
  change (Proposer.proposal_id (Proposer.set_highest_proposal_id h p))
    with (Proposer.proposal_id p).
  change (Proposer.nacks_received (Proposer.set_highest_proposal_id h p))
    with (Proposer.nacks_received p).
  case_bool_decide as Hpid; [|by left].
  destruct (Proposer.nacks_received p) as [nacks|]; [|by left].
  right. exists nacks. split; [done|]. split; [done|].
  cbv zeta. destruct (Z.eqb _ _); [right | by left].
  by destruct (Proposer.prepare _).
Qed.

(** ** Proposer: what it keeps *)

Lemma proposer_grows_refl (p : Proposer.t) : proposer_grows p p.
Proof. repeat split; try done; apply py_le_refl. Qed.

Lemma proposer_grows_trans (p1 p2 p3 : Proposer.t) :
  proposer_grows p1 p2 -> proposer_grows p2 p3 -> proposer_grows p1 p3.
Proof.
  intros (Hu & Hq & Hh & Ha & Hv) (Hu' & Hq' & Hh' & Ha' & Hv').
  split; [congruence|]. split; [congruence|].
  split; [by eapply py_le_trans|]. split; [by eapply py_le_trans | auto].
Qed.

Lemma proposer_grows_observe (p : Proposer.t) (pid : option ProposalID) :
  proposer_grows p (fst (Proposer.observe_proposal p pid)).
Proof.
  destruct pid as [pid|]; [|apply proposer_grows_refl].
  destruct (observe_proposal_highest p pid) as [_ Hle].
  destruct (observe_proposal_frame p pid) as (h & Hobs & _).
  rewrite Hobs in Hle |- *. destruct p. simpl in *.
  repeat split; try done; apply py_le_refl.
Qed.

Lemma proposer_grows_prepare (p : Proposer.t) :
  proposer_grows p (fst (Proposer.prepare p)).
Proof.
  destruct p as [nu q ld pv pid hp ha pr nk cp ca]. simpl.
  split; [done|]. split; [done|].
  split; [apply py_lt_le, next_number_greater|].
  split; [apply py_le_refl | done].
Qed.

Lemma proposer_grows_propose_value (p : Proposer.t) (v : string) :
  proposer_grows p (fst (Proposer.propose_value p v)).
Proof.
  unfold Proposer.propose_value.
  destruct p as [nu q ld pv pid hp ha pr nk cp ca]. simpl.
  destruct pv as [w|]; simpl; [apply proposer_grows_refl|].
  destruct ld; simpl; (repeat split; try done; try apply py_le_refl); eauto.
Qed.

Lemma proposer_grows_set_nacks (p : Proposer.t) (v : option (gset string)) :
  proposer_grows p (Proposer.set_nacks_received v p).
Proof. repeat split; try done; apply py_le_refl. Qed.

Lemma proposer_grows_set_promises (p : Proposer.t) (v : option (gset string)) :
  proposer_grows p (Proposer.set_promises_received v p).
Proof. repeat split; try done; apply py_le_refl. Qed.

Lemma proposer_grows_receive_nack (p : Proposer.t) (m : Nack.t) :
  proposer_grows p (fst (Proposer.receive_nack p m)).
Proof.
  destruct (Nack.promised_proposal_id m) as [promised|] eqn:Hn.
  2:{ rewrite (receive_nack_without_promised_id p m Hn). apply proposer_grows_refl. }
  pose proof (proposer_grows_observe p (Some promised)) as Hobs.
  destruct (receive_nack_shape p m promised Hn)
    as (h & Hh & [-> | (nacks & _ & _ & [-> | ->])]);
    rewrite Hh in Hobs; cbn [fst] in *.
  - done.
  - eapply proposer_grows_trans; [exact Hobs | apply proposer_grows_set_nacks].
  - eapply proposer_grows_trans; [exact Hobs|].
    eapply proposer_grows_trans; [apply proposer_grows_set_nacks|].
    apply proposer_grows_prepare.
Qed.

Lemma proposer_grows_receive_promise (p : Proposer.t) (m : Promise.t) :
  proposer_grows p (fst (Proposer.receive_promise p m)).
Proof.
  pose proof (proposer_grows_observe p (Some (Promise.proposal_id m))) as Hobs.
  destruct (receive_promise_shape p m)
    as (h & Hh & [[-> _] | (_ & _ & promises & _ & _ &
                            [[_ ->] | (last & highest & _ & Hha & ->)])]);
    rewrite Hh in Hobs; cbn [fst] in *; [done| |].
  - eapply proposer_grows_trans; [exact Hobs | apply proposer_grows_set_promises].
  - destruct Hobs as (_ & _ & Hhigh & _). cbn in Hhigh.
    unfold promise_counted. cbn [fst].
    split; [done|]. split; [done|]. split; [done|]. split.
    + cbn [Proposer.highest_accepted_id]. rewrite Hha, ProposalID_gt_le.
      destruct (py_le (Some last) (Some highest)) eqn:Hle; cbn [negb];
        [apply py_le_refl | by apply py_le_total].
    + intros [w Hw]. cbn [Proposer.proposed_value]. rewrite Hw.
      destruct (ProposalID_gt last highest);
        [destruct (Promise.last_accepted_value m)|]; by eexists.
Qed.

Lemma proposer_grows_invoke (p : Proposer.t) (c : Proposer.call) :
  proposer_grows p (Proposer.invoke p c).
Proof.
  destruct c as [v| |pid|msg]; simpl.
  - apply proposer_grows_propose_value.
  - apply proposer_grows_prepare.
  - apply proposer_grows_observe.
  - rewrite proposer_receive_cases.
    destruct msg; try apply proposer_grows_refl.
    + apply proposer_grows_receive_nack.
    + apply proposer_grows_receive_promise.
Qed.

Lemma proposer_grows_run (calls : list Proposer.call) (p : Proposer.t) :
  proposer_grows p (Proposer.run p calls).
Proof.
  revert p. induction calls as [|c calls IH]; intros p; simpl.
  - apply proposer_grows_refl.
  - eapply proposer_grows_trans; [apply proposer_grows_invoke | apply IH].
Qed.

Lemma proposer_sound_init (u : string) (q : Z) : proposer_sound (Proposer.init u q).
Proof. split; [done|]. split; [apply py_le_refl | done]. Qed.

Lemma proposer_sound_set_highest (p : Proposer.t) (h : ProposalID) :
  proposer_sound p ->
  py_le (Some (Proposer.highest_proposal_id p)) (Some h) = true ->
  proposer_sound (Proposer.set_highest_proposal_id h p).
Proof.
  intros (Hu & Hle & Hld) Hh. split; [done|]. split; [|done].
  simpl. by eapply py_le_trans.
Qed.

Lemma proposer_sound_observe (p : Proposer.t) (pid : option ProposalID) :
  proposer_sound p -> proposer_sound (fst (Proposer.observe_proposal p pid)).
Proof.
  intros Hs. destruct pid as [pid|]; [|done].
  destruct (proposer_grows_observe p (Some pid)) as (_ & _ & Hle & _).
  destruct (observe_proposal_frame p pid) as (h & Hobs & _).
  rewrite Hobs in Hle |- *. by apply proposer_sound_set_highest.
Qed.

Lemma proposer_sound_prepare (p : Proposer.t) :
  proposer_sound p -> proposer_sound (fst (Proposer.prepare p)).
Proof.
  intros _. split; [done|]. split; [apply py_le_refl | done].
Qed.

Lemma proposer_sound_propose_value (p : Proposer.t) (v : string) :
  proposer_sound p -> proposer_sound (fst (Proposer.propose_value p v)).
Proof.
  intros Hs. unfold Proposer.propose_value.
  destruct p as [nu q ld pv pid hp ha pr nk cp ca].
  destruct pv as [w|]; [done|]. by destruct ld.
Qed.

Lemma proposer_sound_receive_nack (p : Proposer.t) (m : Nack.t) :
  proposer_sound p -> proposer_sound (fst (Proposer.receive_nack p m)).
Proof.
  intros Hs.
  destruct (Nack.promised_proposal_id m) as [promised|] eqn:Hn.
  2:{ by rewrite (receive_nack_without_promised_id p m Hn). }
  pose proof (proposer_sound_observe p (Some promised) Hs) as Hobs.
  destruct (receive_nack_shape p m promised Hn)
    as (h & Hh & [-> | (nacks & _ & _ & [-> | ->])]);
    rewrite Hh in Hobs; cbn [fst] in *.
  - done.
  - exact Hobs.
  - by apply proposer_sound_prepare.
Qed.

Lemma proposer_sound_receive_promise (p : Proposer.t) (m : Promise.t) :
  proposer_sound p -> proposer_sound (fst (Proposer.receive_promise p m)).
Proof.
  intros Hs.
  pose proof (proposer_sound_observe p (Some (Promise.proposal_id m)) Hs) as Hobs.
  destruct (receive_promise_shape p m)
    as (h & Hh & [[-> _] | (Hld & _ & promises & _ & _ &
                            [[_ ->] | (last & highest & _ & _ & ->)])]);
    rewrite Hh in Hobs; cbn [fst] in *; [done| |].
  - destruct Hobs as (Hu & Hle & _). split; [done|]. split; [done|].
    cbn [Proposer.leader Proposer.set_promises_received
         Proposer.set_highest_proposal_id]. by rewrite Hld.
  - destruct Hobs as (Hu & Hle & _).
    split; [done|]. split; [done|].
    unfold promise_counted.
    cbn [fst Proposer.leader Proposer.promises_received Proposer.quorum_size].
    intros Hq%Z.eqb_eq. eauto.
Qed.

Lemma proposer_sound_invoke (p : Proposer.t) (c : Proposer.call) :
  proposer_sound p -> proposer_sound (Proposer.invoke p c).
Proof.
  intros Hs. destruct c as [v| |pid|msg]; simpl.
  - by apply proposer_sound_propose_value.
  - by apply proposer_sound_prepare.
  - by apply proposer_sound_observe.
  - rewrite proposer_receive_cases. destruct msg; try done.
    + by apply proposer_sound_receive_nack.
    + by apply proposer_sound_receive_promise.
Qed.

Lemma proposer_sound_run (calls : list Proposer.call) (p : Proposer.t) :
  proposer_sound p -> proposer_sound (Proposer.run p calls).
Proof.
  revert p. induction calls as [|c calls IH]; intros p Hs; simpl; [done|].
  by apply IH, proposer_sound_invoke.
Qed.

(** ** Proposer: no promise is ever counted to the end *)

(** On a proposer that has recorded no accepted id, a promise that
    passes the three tests of [receive_promise] is added to
    [promises_received], and then the comparison with
    [highest_accepted_id] raises. *)
Lemma receive_promise_stalls (p : Proposer.t) (m : Promise.t) :
  Proposer.highest_accepted_id p = None ->
  (Proposer.highest_accepted_id (fst (Proposer.receive_promise p m)) = None /\
   Proposer.leader (fst (Proposer.receive_promise p m)) = Proposer.leader p /\
   Proposer.current_accept_msg (fst (Proposer.receive_promise p m))
     = Proposer.current_accept_msg p /\
   Proposer.proposed_value (fst (Proposer.receive_promise p m))
     = Proposer.proposed_value p) /\
  (snd (Proposer.receive_promise p m) = Return None \/
   snd (Proposer.receive_promise p m) = Raise TypeError).
Proof.
  intros Hha.
  destruct (receive_promise_shape p m)
    as (h & _ & [[-> Ho] | (_ & _ & promises & _ & _ &
                            [[_ ->] | (last & highest & _ & Hsome & _)])]).
  - split; [done|]. destruct Ho as [? | [_ ?]]; auto.
  - split; [done | by right].
  - congruence.
Qed.

Lemma proposer_stalled_init (u : string) (q : Z) :
  proposer_stalled (Proposer.init u q).
Proof. done. Qed.

Lemma proposer_stalled_invoke (p : Proposer.t) (c : Proposer.call) :
  proposer_stalled p ->
  proposer_stalled (Proposer.invoke p c) /\
  Proposer.proposed_value (Proposer.invoke p c)
  = match c, Proposer.proposed_value p with
    | Proposer.CallProposeValue v, None => Some v
    | _, held => held
    end.
Proof.
  intros (Hld & Hha & Hca). destruct c as [v| |pid|msg]; cbn [Proposer.invoke].
  - unfold Proposer.propose_value.
    destruct p as [nu q ld pv pid hp ha pr nk cp ca]. cbn in *. subst.
    by destruct pv.
  - done.
  - destruct pid as [pid|]; [|done].
    by destruct (observe_proposal_frame p pid) as (h & -> & _).
  - rewrite proposer_receive_cases.
    destruct msg as [m|m|m|m|m|m]; try done.
    + destruct (Nack.promised_proposal_id m) as [promised|] eqn:Hn.
      2:{ by rewrite (receive_nack_without_promised_id p m Hn). }
      destruct (receive_nack_shape p m promised Hn)
        as (h & _ & [-> | (nacks & _ & _ & [-> | ->])]); done.
    + destruct (receive_promise_stalls p m Hha) as [(Hha' & Hld' & Hca' & Hv') _].
      split; [|done]. split; [congruence|]. split; [done | congruence].
Qed.

Lemma proposer_stalled_run (calls : list Proposer.call) (p : Proposer.t) :
  proposer_stalled p ->
  proposer_stalled (Proposer.run p calls) /\
  Proposer.proposed_value (Proposer.run p calls)
  = match Proposer.proposed_value p with
    | Some v => Some v
    | None => first_proposed calls
    end.
Proof.
  revert p. induction calls as [|c calls IH]; intros p Hs; cbn [Proposer.run].
  - split; [done|]. by destruct (Proposer.proposed_value p).
  - destruct (proposer_stalled_invoke p c Hs) as [Hs' Hv'].
    destruct (IH _ Hs') as [Hs'' Hv'']. split; [done|].
    rewrite Hv'', Hv'. destruct c, (Proposer.proposed_value p); done.
Qed.


(** C2, where the code parts from it.  A proposer that has been through
    any calls since it was constructed is not leader and has recorded no
    accepted id.  When it receives a [Promise] for its current
    [proposal_id] from a uid not yet in [promises_received], the uid is
    added and the comparison
    [msg.last_accepted_id > self.highest_accepted_id] raises [TypeError]:
    nothing is adopted, the quorum is not looked at, [leader] stays
    false and no [Accept] is returned. *)
Theorem receive_promise_raises_on_missing_id (u : string) (q : Z)
    (calls : list Proposer.call) (m : Promise.t) (promises : gset string) :
  let p := Proposer.run (Proposer.init u q) calls in
  Promise.proposal_id m = Proposer.proposal_id p ->
  Proposer.promises_received p = Some promises ->
  Promise.from_uid m ∉ promises ->
  Proposer.leader p = false /\
  Proposer.highest_accepted_id p = None /\
  Proposer.receive_promise p m
  = (Proposer.set_promises_received (Some ({[ Promise.from_uid m ]} ∪ promises)) p,
     Raise TypeError).
Proof.
  intros p Hpid Hpr Hnotin.
  destruct (proposer_stalled_run calls _ (proposer_stalled_init u q))
    as [(Hld & Hha & _) _].
  destruct (proposer_sound_run calls _ (proposer_sound_init u q)) as (_ & Hle & _).
  fold p in Hld, Hha, Hle.
  split; [done|]. split; [done|].
  destruct (receive_promise_shape p m)
    as (h & Hobs & [[Hfst Ho] | (_ & _ & promises' & Hpr' & _ &
                                 [[_ Heq] | (last & highest & _ & Hsome & _)])]).
  - exfalso. revert Hfst Ho. unfold Proposer.receive_promise.
    rewrite Hobs. cbn [and_then].
    change (Proposer.leader (Proposer.set_highest_proposal_id h p))
      with (Proposer.leader p).
    change (Proposer.proposal_id (Proposer.set_highest_proposal_id h p))
      with (Proposer.proposal_id p).
    change (Proposer.promises_received (Proposer.set_highest_proposal_id h p))
      with (Proposer.promises_received p).
    rewrite Hld, Hpr, (bool_decide_true _ Hpid), (bool_decide_true _ Hnotin).
    cbn [negb andb].
    change (Proposer.highest_accepted_id
              (Proposer.set_promises_received (Some ({[Promise.from_uid m]} ∪ promises))
                 (Proposer.set_highest_proposal_id h p)))
      with (Proposer.highest_accepted_id p).
    rewrite Hha. destruct (Promise.last_accepted_id m); cbn [snd];
      intros _ [? | [? _]]; congruence.
  - rewrite Heq. rewrite Hpr in Hpr'. injection Hpr' as <-.
    rewrite <- Hpid in Hle. rewrite (observe_proposal_noop p _ Hle) in Hobs.
    injection Hobs as <-. done.
  - congruence.
Qed.

Lemma receive_promise_raises_on_missing_id_witness :
  let calls := [Proposer.CallProposeValue "v"; Proposer.CallPrepare] in
  let p := Proposer.run (Proposer.init "B" 1) calls in
  let m := Promise.mk "X" "B" (mkProposalID 1 "B") None None in
  Proposer.proposed_value p = Some "v" /\
  Proposer.quorum_size p = 1 /\
  snd (Proposer.receive_promise p m) = Raise TypeError /\
  Proposer.leader (fst (Proposer.receive_promise p m)) = false /\
  Proposer.promises_received (fst (Proposer.receive_promise p m))
    = Some ({[ "X" ]} ∪ ∅).
Proof.
  intros calls p m. split; [reflexivity|]. split; [reflexivity|].
  destruct (receive_promise_raises_on_missing_id "B" 1 calls m ∅)
    as (Hld & _ & Heq); [reflexivity | reflexivity | by vm_compute |].
  fold p in Hld, Heq.
  split; [exact (f_equal snd Heq)|].
  split; [exact (eq_trans (f_equal (fun r => Proposer.leader (fst r)) Heq) Hld)|].
  exact (f_equal (fun r => Proposer.promises_received (fst r)) Heq).
Defined.

(** Outside the precondition of the previous theorem: a proposer that
    never ran [prepare] has no promise set, and a [Promise] for its
    initial proposal id makes the membership test raise [TypeError]. *)
Lemma receive_promise_before_prepare (p : Proposer.t) (m : Promise.t) :
  Proposer.leader p = false ->
  Promise.proposal_id m = Proposer.proposal_id p ->
  Proposer.promises_received p = None ->
  Proposer.receive_promise p m
  = (fst (Proposer.observe_proposal p (Some (Promise.proposal_id m))), Raise TypeError).
Proof.
  intros Hleader Hpid Hprom. unfold Proposer.receive_promise.
  destruct (observe_proposal_frame p (Promise.proposal_id m)) as (h & -> & _).
  destruct p as [nu q ld pv pid hp ha pr nk cp ca]. simpl in *. subst.
  by rewrite bool_decide_true.
Qed.

(** C5. On a [Nack] that reports the acceptor's promised id,
    [receive_nack] first applies
    [observe_proposal(msg.promised_proposal_id)], which changes nothing
    but [highest_proposal_id].  If the proposer never prepared
    ([nacks_received] is [None]) or the Nack is for another proposal id,
    that is all and nothing is returned.  Otherwise the sender joins
    [nacks_received]; if their number is then [quorum_size], [prepare]
    runs and its [Prepare] message is returned, and else nothing is
    returned. *)
Theorem receive_nack_cases (p : Proposer.t) (m : Nack.t) (promised : ProposalID) :
  Nack.promised_proposal_id m = Some promised ->
  let p0 := fst (Proposer.observe_proposal p (Nack.promised_proposal_id m)) in
  (exists h, p0 = Proposer.set_highest_proposal_id h p /\
     (h = Proposer.highest_proposal_id p \/ h = promised)) /\
  (Proposer.nacks_received p = None \/ Nack.proposal_id m <> Proposer.proposal_id p ->
   Proposer.receive_nack p m = (p0, Return None)) /\
  (forall nacks : gset string,
     Proposer.nacks_received p = Some nacks ->
     Nack.proposal_id m = Proposer.proposal_id p ->
     let nacks' := {[ Nack.from_uid m ]} ∪ nacks in
     let p1 := Proposer.set_nacks_received (Some nacks') p0 in
     (Z.of_nat (size nacks') <> Proposer.quorum_size p ->
      Proposer.receive_nack p m = (p1, Return None)) /\
     (Z.of_nat (size nacks') = Proposer.quorum_size p ->
      Proposer.receive_nack p m
      = (fst (Proposer.prepare p1), Return (Some (MPrepare (snd (Proposer.prepare p1))))))).
Proof.
  intros Hn p0. subst p0. rewrite Hn.
  destruct (observe_proposal_frame p promised) as (h & Hobs & Hh).
  rewrite Hobs. cbn [fst].
  split; [by exists h|].
  unfold Proposer.receive_nack. rewrite Hn, Hobs. cbn [and_then].
  change (Proposer.proposal_id (Proposer.set_highest_proposal_id h p))
    with (Proposer.proposal_id p).
  change (Proposer.nacks_received (Proposer.set_highest_proposal_id h p))
    with (Proposer.nacks_received p).
  split.
  - intros [-> | Hne]; [by case_bool_decide|].
    by rewrite bool_decide_false.
  - intros nacks -> ->. rewrite bool_decide_true by done.
    cbv zeta.
    change (Proposer.quorum_size
              (Proposer.set_nacks_received (Some ({[Nack.from_uid m]} ∪ nacks))
                 (Proposer.set_highest_proposal_id h p)))
      with (Proposer.quorum_size p).
    split; intros Hq.
    + apply Z.eqb_neq in Hq. by rewrite Hq.
    + apply Z.eqb_eq in Hq. rewrite Hq. by destruct (Proposer.prepare _).
Qed.

Lemma receive_nack_cases_witness :
  let fresh := Proposer.init "A" 2 in
  let p := fst (Proposer.receive_nack
                  (fst (Proposer.prepare fresh))
                  (Nack.mk "X" "A" (mkProposalID 1 "A") (Some (mkProposalID 5 "Z")))) in
  let m := Nack.mk "Y" "A" (mkProposalID 1 "A") (Some (mkProposalID 5 "Z")) in
  (* before any [prepare]: ignored, but the promised id is observed *)
  Proposer.receive_nack fresh m
    = (Proposer.set_highest_proposal_id (mkProposalID 5 "Z") fresh, Return None) /\
  (* the second Nack of the round reaches the quorum of two *)
  snd (Proposer.receive_nack p m)
    = Return (Some (MPrepare (Prepare.mk "A" (mkProposalID 6 "A")))).
Proof.
  intros fresh p m. split.
  - destruct (receive_nack_cases fresh m (mkProposalID 5 "Z")) as (_ & Hign & _);
      [reflexivity|].
    rewrite Hign; [reflexivity | by left].
  - destruct (receive_nack_cases p m (mkProposalID 5 "Z")) as (_ & _ & Hcnt);
      [reflexivity|].
    destruct (Hcnt {[ "X" ]}) as [_ Hq]; [by vm_compute | reflexivity |].
    rewrite Hq; [reflexivity | by vm_compute].
Defined.

(** ** Dispatch *)

Lemma receive_unsupported {S : Type} (methods : list (string * handler S))
    (self : S) (msg : PaxosMessage) :
  supports methods msg = false ->
  receive methods self msg = (self, Raise InvalidMessageError).
Proof.
  unfold supports, receive.
  by destruct (getattr methods ("receive_" +:+ lower (class_name msg))).
Qed.

(** C9. A message whose class has no [receive_*] method in the role's
    class makes [receive] raise [InvalidMessageError] and leaves the role
    as it was.  The supported classes are [Nack] and [Promise] for a
    Proposer, [Prepare] and [Accept] for an Acceptor, [Accepted] for a
    Learner, and all but [Resolution] for a PaxosInstance. *)
Theorem unsupported_message_raises (msg : PaxosMessage) :
  (supports Proposer.methods msg
     = match msg with MNack _ | MPromise _ => true | _ => false end /\
   supports Acceptor.methods msg
     = match msg with MPrepare _ | MAccept _ => true | _ => false end /\
   supports Learner.methods msg
     = match msg with MAccepted _ => true | _ => false end /\
   supports PaxosInstance.methods msg
     = match msg with MResolution _ => false | _ => true end) /\
  (forall p : Proposer.t,
     supports Proposer.methods msg = false ->
     Proposer.receive p msg = (p, Raise InvalidMessageError)) /\
  (forall a : Acceptor.t,
     supports Acceptor.methods msg = false ->
     Acceptor.receive a msg = (a, Raise InvalidMessageError)) /\
  (forall l : Learner.t,
     supports Learner.methods msg = false ->
     Learner.receive l msg = (l, Raise InvalidMessageError)) /\
  (forall s : PaxosInstance.t,
     supports PaxosInstance.methods msg = false ->
     PaxosInstance.receive s msg = (s, Raise InvalidMessageError)).
Proof.
  split; [by destruct msg|].
  repeat split; intros; by apply receive_unsupported.
Qed.

Lemma unsupported_message_raises_witness :
  let promise := MPromise (Promise.mk "X" "A" (mkProposalID 1 "A") None None) in
  let resolution := MResolution (Resolution.mk "L" "v") in
  let a := Acceptor.init "X" None None None in
  let p := Proposer.init "A" 2 in
  let l := Learner.init "L" 2 in
  let s := PaxosInstance.init "N" 2 None None None in
  Acceptor.receive a promise = (a, Raise InvalidMessageError) /\
  Proposer.receive p resolution = (p, Raise InvalidMessageError) /\
  Acceptor.receive a resolution = (a, Raise InvalidMessageError) /\
  Learner.receive l resolution = (l, Raise InvalidMessageError) /\
  PaxosInstance.receive s resolution = (s, Raise InvalidMessageError).
Proof.
  intros promise resolution a p l s.
  destruct (unsupported_message_raises promise) as (_ & _ & Ha & _).
  destruct (unsupported_message_raises resolution) as (_ & Hp & Ha' & Hl & Hs).
  split; [apply Ha; reflexivity|].
  split; [apply Hp; reflexivity|].
  split; [apply Ha'; reflexivity|].
  split; [apply Hl; reflexivity | apply Hs; reflexivity].
Defined.

(** ** PaxosInstance *)

(** No method writes the attributes the roles share. *)
Lemma proposer_observe_proposal_shared (p : Proposer.t) (pid : option ProposalID) :
  Proposer.network_uid (fst (Proposer.observe_proposal p pid)) = Proposer.network_uid p /\
  Proposer.quorum_size (fst (Proposer.observe_proposal p pid)) = Proposer.quorum_size p.
Proof. by destruct (proposer_grows_observe p pid) as (? & ? & _). Qed.

Lemma proposer_receive_promise_shared (p : Proposer.t) (m : Promise.t) :
  Proposer.network_uid (fst (Proposer.receive_promise p m)) = Proposer.network_uid p /\
  Proposer.quorum_size (fst (Proposer.receive_promise p m)) = Proposer.quorum_size p.
Proof. by destruct (proposer_grows_receive_promise p m) as (? & ? & _). Qed.

Lemma proposer_receive_nack_shared (p : Proposer.t) (m : Nack.t) :
  Proposer.network_uid (fst (Proposer.receive_nack p m)) = Proposer.network_uid p /\
  Proposer.quorum_size (fst (Proposer.receive_nack p m)) = Proposer.quorum_size p.
Proof. by destruct (proposer_grows_receive_nack p m) as (? & ? & _). Qed.

Lemma acceptor_receive_prepare_shared (a : Acceptor.t) (m : Prepare.t) :
  Acceptor.network_uid (fst (Acceptor.receive_prepare a m)) = Acceptor.network_uid a.
Proof. unfold Acceptor.receive_prepare. by repeat case_match. Qed.

Lemma acceptor_receive_accept_shared (a : Acceptor.t) (m : Accept.t) :
  Acceptor.network_uid (fst (Acceptor.receive_accept a m)) = Acceptor.network_uid a.
Proof. unfold Acceptor.receive_accept. by repeat case_match. Qed.

Lemma learner_receive_accepted_shared (l : Learner.t) (m : Accepted.t) :
  Learner.network_uid (fst (Learner.receive_accepted l m)) = Learner.network_uid l /\
  Learner.quorum_size (fst (Learner.receive_accepted l m)) = Learner.quorum_size l.
Proof.
  unfold Learner.receive_accepted, Learner.already_resolved, Learner.revoke_vote,
    Learner.count_vote.
  destruct l as [nu q props accs fv fa fp]. simpl.
  repeat (case_match; simpl in *; simplify_eq; try done).
Qed.

(** Reading a role off the object after another role's attributes were
    written back. *)
Lemma as_proposer_with_proposer (p : Proposer.t) (s : PaxosInstance.t) :
  PaxosInstance.as_proposer (PaxosInstance.with_proposer p s) = p.
Proof. by destruct p. Qed.

Lemma as_acceptor_with_acceptor (a : Acceptor.t) (s : PaxosInstance.t) :
  PaxosInstance.as_acceptor (PaxosInstance.with_acceptor a s) = a.
Proof. by destruct a. Qed.

Lemma as_learner_with_learner (l : Learner.t) (s : PaxosInstance.t) :
  PaxosInstance.as_learner (PaxosInstance.with_learner l s) = l.
Proof. by destruct l. Qed.

Lemma as_acceptor_with_proposer (p : Proposer.t) (s : PaxosInstance.t) :
  Proposer.network_uid p = PaxosInstance.network_uid s ->
  PaxosInstance.as_acceptor (PaxosInstance.with_proposer p s)
  = PaxosInstance.as_acceptor s.
Proof. unfold PaxosInstance.as_acceptor. simpl. by intros ->. Qed.

Lemma as_learner_with_proposer (p : Proposer.t) (s : PaxosInstance.t) :
  Proposer.network_uid p = PaxosInstance.network_uid s ->
  Proposer.quorum_size p = PaxosInstance.quorum_size s ->
  PaxosInstance.as_learner (PaxosInstance.with_proposer p s)
  = PaxosInstance.as_learner s.
Proof. unfold PaxosInstance.as_learner. simpl. by intros -> ->. Qed.

Lemma as_proposer_with_acceptor (a : Acceptor.t) (s : PaxosInstance.t) :
  Acceptor.network_uid a = PaxosInstance.network_uid s ->
  PaxosInstance.as_proposer (PaxosInstance.with_acceptor a s)
  = PaxosInstance.as_proposer s.
Proof. unfold PaxosInstance.as_proposer. simpl. by intros ->. Qed.

Lemma as_learner_with_acceptor (a : Acceptor.t) (s : PaxosInstance.t) :
  Acceptor.network_uid a = PaxosInstance.network_uid s ->
  PaxosInstance.as_learner (PaxosInstance.with_acceptor a s)
  = PaxosInstance.as_learner s.
Proof. unfold PaxosInstance.as_learner. simpl. by intros ->. Qed.

Lemma as_proposer_with_learner (l : Learner.t) (s : PaxosInstance.t) :
  Learner.network_uid l = PaxosInstance.network_uid s ->
  Learner.quorum_size l = PaxosInstance.quorum_size s ->
  PaxosInstance.as_proposer (PaxosInstance.with_learner l s)
  = PaxosInstance.as_proposer s.
Proof. unfold PaxosInstance.as_proposer. simpl. by intros -> ->. Qed.

Lemma as_acceptor_with_learner (l : Learner.t) (s : PaxosInstance.t) :
  Learner.network_uid l = PaxosInstance.network_uid s ->
  PaxosInstance.as_acceptor (PaxosInstance.with_learner l s)
  = PaxosInstance.as_acceptor s.
Proof. unfold PaxosInstance.as_acceptor. simpl. by intros ->. Qed.

(** A method inherited from [Proposer] acts on the proposer attributes as
    it does on a standalone proposer and leaves the other roles alone,
    provided it keeps the shared attributes. *)
Lemma inherit_proposer {M : Type} (f : Proposer.t -> M -> Proposer.t * outcome)
    (s : PaxosInstance.t) (m : M) :
  Proposer.network_uid (fst (f (PaxosInstance.as_proposer s) m))
    = PaxosInstance.network_uid s ->
  Proposer.quorum_size (fst (f (PaxosInstance.as_proposer s) m))
    = PaxosInstance.quorum_size s ->
  let r := inherit PaxosInstance.as_proposer PaxosInstance.with_proposer f s m in
  snd r = snd (f (PaxosInstance.as_proposer s) m) /\
  PaxosInstance.as_proposer (fst r) = fst (f (PaxosInstance.as_proposer s) m) /\
  PaxosInstance.as_acceptor (fst r) = PaxosInstance.as_acceptor s /\
  PaxosInstance.as_learner (fst r) = PaxosInstance.as_learner s.
Proof.
  intros Hu Hq. unfold inherit.
  destruct (f (PaxosInstance.as_proposer s) m) as [p o]. simpl in *.
  split; [done|]. split; [apply as_proposer_with_proposer|].
  split; [by apply as_acceptor_with_proposer | by apply as_learner_with_proposer].
Qed.

Lemma inherit_acceptor {M : Type} (f : Acceptor.t -> M -> Acceptor.t * outcome)
    (s : PaxosInstance.t) (m : M) :
  Acceptor.network_uid (fst (f (PaxosInstance.as_acceptor s) m))
    = PaxosInstance.network_uid s ->
  let r := inherit PaxosInstance.as_acceptor PaxosInstance.with_acceptor f s m in
  snd r = snd (f (PaxosInstance.as_acceptor s) m) /\
  PaxosInstance.as_acceptor (fst r) = fst (f (PaxosInstance.as_acceptor s) m) /\
  PaxosInstance.as_proposer (fst r) = PaxosInstance.as_proposer s /\
  PaxosInstance.as_learner (fst r) = PaxosInstance.as_learner s.
Proof.
  intros Hu. unfold inherit.
  destruct (f (PaxosInstance.as_acceptor s) m) as [a o]. simpl in *.
  split; [done|]. split; [apply as_acceptor_with_acceptor|].
  split; [by apply as_proposer_with_acceptor | by apply as_learner_with_acceptor].
Qed.

Lemma inherit_learner {M : Type} (f : Learner.t -> M -> Learner.t * outcome)
    (s : PaxosInstance.t) (m : M) :
  Learner.network_uid (fst (f (PaxosInstance.as_learner s) m))
    = PaxosInstance.network_uid s ->
  Learner.quorum_size (fst (f (PaxosInstance.as_learner s) m))
    = PaxosInstance.quorum_size s ->
  let r := inherit PaxosInstance.as_learner PaxosInstance.with_learner f s m in
  snd r = snd (f (PaxosInstance.as_learner s) m) /\
  PaxosInstance.as_learner (fst r) = fst (f (PaxosInstance.as_learner s) m) /\
  PaxosInstance.as_proposer (fst r) = PaxosInstance.as_proposer s /\
  PaxosInstance.as_acceptor (fst r) = PaxosInstance.as_acceptor s.
Proof.
  intros Hu Hq. unfold inherit.
  destruct (f (PaxosInstance.as_learner s) m) as [l o]. simpl in *.
  split; [done|]. split; [apply as_learner_with_learner|].
  split; [by apply as_proposer_with_learner | by apply as_acceptor_with_learner].
Qed.

Lemma paxos_instance_receive_cases (s : PaxosInstance.t) (msg : PaxosMessage) :
  PaxosInstance.receive s msg =
  match msg with
  | MPrepare m => PaxosInstance.receive_prepare s m
  | MAccept m => PaxosInstance.receive_accept s m
  | MNack m => PaxosInstance.receive_nack s m
  | MPromise m => PaxosInstance.receive_promise s m
  | MAccepted m => PaxosInstance.receive_accepted s m
  | MResolution _ => (s, Raise InvalidMessageError)
  end.
Proof. by destruct msg. Qed.

(** On the object, [observe_proposal] of an id returns, acts on the
    proposer attributes as on a standalone proposer and leaves the
    rest. *)
Lemma paxos_instance_observe_proposal (s : PaxosInstance.t) (pid : ProposalID) :
  exists s',
    PaxosInstance.observe_proposal s (Some pid) = (s', Return None) /\
    PaxosInstance.as_proposer s'
      = fst (Proposer.observe_proposal (PaxosInstance.as_proposer s) (Some pid)) /\
    PaxosInstance.as_acceptor s' = PaxosInstance.as_acceptor s /\
    PaxosInstance.as_learner s' = PaxosInstance.as_learner s /\
    PaxosInstance.network_uid s' = PaxosInstance.network_uid s.
Proof.
  unfold PaxosInstance.observe_proposal, inherit.
  destruct (proposer_observe_proposal_shared (PaxosInstance.as_proposer s) (Some pid))
    as [Hu Hq].
  destruct (observe_proposal_frame (PaxosInstance.as_proposer s) pid) as (h & Hobs & _).
  rewrite Hobs in Hu, Hq |- *. cbn [fst] in *.
  eexists. split; [done|].
  split; [apply as_proposer_with_proposer|].
  split; [by apply as_acceptor_with_proposer|].
  split; [by apply as_learner_with_proposer | done].
Qed.

(** C8. On a PaxosInstance, a [Prepare] or an [Accept] is answered as a
    standalone acceptor holding the same acceptor attributes answers it,
    and those attributes end up as the standalone acceptor's do; besides
    that, [observe_proposal(msg.proposal_id)] has been applied to the
    proposer attributes, so [highest_proposal_id] is at least
    [msg.proposal_id], and the learner attributes are untouched.  A
    [Promise] or a [Nack] is handled as by a standalone proposer, an
    [Accepted] as by a standalone learner, the other roles' attributes
    staying as they were. *)
Theorem paxos_instance_refines_roles (s : PaxosInstance.t) :
  (forall m : Prepare.t,
     let r := PaxosInstance.receive s (MPrepare m) in
     let r0 := Acceptor.receive_prepare (PaxosInstance.as_acceptor s) m in
     snd r = snd r0 /\
     PaxosInstance.as_acceptor (fst r) = fst r0 /\
     PaxosInstance.as_proposer (fst r)
       = fst (Proposer.observe_proposal (PaxosInstance.as_proposer s)
                                        (Some (Prepare.proposal_id m))) /\
     PaxosInstance.as_learner (fst r) = PaxosInstance.as_learner s /\
     py_le (Some (Prepare.proposal_id m))
           (Some (PaxosInstance.highest_proposal_id (fst r))) = true) /\
  (forall m : Accept.t,
     let r := PaxosInstance.receive s (MAccept m) in
     let r0 := Acceptor.receive_accept (PaxosInstance.as_acceptor s) m in
     snd r = snd r0 /\
     PaxosInstance.as_acceptor (fst r) = fst r0 /\
     PaxosInstance.as_proposer (fst r)
       = fst (Proposer.observe_proposal (PaxosInstance.as_proposer s)
                                        (Some (Accept.proposal_id m))) /\
     PaxosInstance.as_learner (fst r) = PaxosInstance.as_learner s /\
     py_le (Some (Accept.proposal_id m))
           (Some (PaxosInstance.highest_proposal_id (fst r))) = true) /\
  (forall m : Promise.t,
     let r := PaxosInstance.receive s (MPromise m) in
     let r0 := Proposer.receive_promise (PaxosInstance.as_proposer s) m in
     snd r = snd r0 /\
     PaxosInstance.as_proposer (fst r) = fst r0 /\
     PaxosInstance.as_acceptor (fst r) = PaxosInstance.as_acceptor s /\
     PaxosInstance.as_learner (fst r) = PaxosInstance.as_learner s) /\
  (forall m : Nack.t,
     let r := PaxosInstance.receive s (MNack m) in
     let r0 := Proposer.receive_nack (PaxosInstance.as_proposer s) m in
     snd r = snd r0 /\
     PaxosInstance.as_proposer (fst r) = fst r0 /\
     PaxosInstance.as_acceptor (fst r) = PaxosInstance.as_acceptor s /\
     PaxosInstance.as_learner (fst r) = PaxosInstance.as_learner s) /\
  (forall m : Accepted.t,
     let r := PaxosInstance.receive s (MAccepted m) in
     let r0 := Learner.receive_accepted (PaxosInstance.as_learner s) m in
     snd r = snd r0 /\
     PaxosInstance.as_learner (fst r) = fst r0 /\
     PaxosInstance.as_proposer (fst r) = PaxosInstance.as_proposer s /\
     PaxosInstance.as_acceptor (fst r) = PaxosInstance.as_acceptor s).
Proof.
  split; [|split; [|split; [|split]]]; intros m r r0; subst r r0;
    rewrite paxos_instance_receive_cases.
  - unfold PaxosInstance.receive_prepare.
    destruct (paxos_instance_observe_proposal s (Prepare.proposal_id m))
      as (s0 & -> & Hp & Ha & Hl & Hu). cbn [and_then].
    destruct (inherit_acceptor Acceptor.receive_prepare s0 m) as (Ho & Ha' & Hp' & Hl').
    { rewrite Ha, Hu. apply acceptor_receive_prepare_shared. }
    rewrite Ha in Ho, Ha'. rewrite Hp in Hp'. rewrite Hl in Hl'.
    repeat (split; [done|]).
    replace (PaxosInstance.highest_proposal_id _)
      with (Proposer.highest_proposal_id (PaxosInstance.as_proposer
              (fst (inherit PaxosInstance.as_acceptor PaxosInstance.with_acceptor
                      Acceptor.receive_prepare s0 m)))) by done.
    rewrite Hp'.
    apply (observe_proposal_highest (PaxosInstance.as_proposer s)).
  - unfold PaxosInstance.receive_accept.
    destruct (paxos_instance_observe_proposal s (Accept.proposal_id m))
      as (s0 & -> & Hp & Ha & Hl & Hu). cbn [and_then].
    destruct (inherit_acceptor Acceptor.receive_accept s0 m) as (Ho & Ha' & Hp' & Hl').
    { rewrite Ha, Hu. apply acceptor_receive_accept_shared. }
    rewrite Ha in Ho, Ha'. rewrite Hp in Hp'. rewrite Hl in Hl'.
    repeat (split; [done|]).
    replace (PaxosInstance.highest_proposal_id _)
      with (Proposer.highest_proposal_id (PaxosInstance.as_proposer
              (fst (inherit PaxosInstance.as_acceptor PaxosInstance.with_acceptor
                      Acceptor.receive_accept s0 m)))) by done.
    rewrite Hp'.
    apply (observe_proposal_highest (PaxosInstance.as_proposer s)).
  - apply (inherit_proposer Proposer.receive_promise);
      apply proposer_receive_promise_shared.
  - apply (inherit_proposer Proposer.receive_nack);
      apply proposer_receive_nack_shared.
  - apply (inherit_learner Learner.receive_accepted);
      apply learner_receive_accepted_shared.
Qed.

(** ** Proposer: across calls *)

(** X1. Whatever calls a new proposer receives, it keeps its uid and
    quorum size, every proposal id it holds bears its own uid, and that
    id is never above the highest id it knows of. *)
Theorem proposer_proposal_id_invariant (u : string) (q : Z)
    (calls : list Proposer.call) :
  let p := Proposer.run (Proposer.init u q) calls in
  Proposer.network_uid p = u /\
  Proposer.quorum_size p = q /\
  uid (Proposer.proposal_id p) = u /\
  py_le (Some (Proposer.proposal_id p)) (Some (Proposer.highest_proposal_id p)) = true.
Proof.
  intros p.
  destruct (proposer_grows_run calls (Proposer.init u q)) as (Hu & Hq & _).
  destruct (proposer_sound_run calls _ (proposer_sound_init u q)) as (Hid & Hle & _).
  fold p in Hu, Hq, Hid, Hle. simpl in Hu, Hq.
  split; [done|]. split; [done|]. split; [congruence | done].
Qed.

(** X2. A proposer never gets to lead.  Whatever calls it has been
    through since it was constructed, it is not leader, has recorded no
    accepted id and has sent no [Accept]; [receive] returns no [Accept]
    and [propose_value] returns nothing. *)
Theorem proposer_never_leads (u : string) (q : Z) (calls : list Proposer.call) :
  let p := Proposer.run (Proposer.init u q) calls in
  Proposer.leader p = false /\
  Proposer.highest_accepted_id p = None /\
  Proposer.current_accept_msg p = None /\
  (forall msg a, snd (Proposer.receive p msg) <> Return (Some (MAccept a))) /\
  (forall v, snd (Proposer.propose_value p v) = None).
Proof.
  intros p.
  destruct (proposer_stalled_run calls _ (proposer_stalled_init u q))
    as [(Hld & Hha & Hca) _].
  fold p in Hld, Hha, Hca.
  split; [done|]. split; [done|]. split; [done|]. split.
  - intros msg a. rewrite proposer_receive_cases.
    destruct msg as [m|m|m|m|m|m]; try done.
    + destruct (Nack.promised_proposal_id m) as [promised|] eqn:Hn.
      2:{ by rewrite (receive_nack_without_promised_id p m Hn). }
      destruct (receive_nack_shape p m promised Hn)
        as (h & _ & [-> | (nacks & _ & _ & [-> | ->])]); done.
    + destruct (receive_promise_stalls p m Hha) as [_ [-> | ->]]; done.
  - intros v. unfold Proposer.propose_value.
    destruct (Proposer.proposed_value p); [done|].
    change (Proposer.leader (Proposer.set_proposed_value (Some v) p))
      with (Proposer.leader p).
    by rewrite Hld.
Qed.

(** X3. No call makes a proposer forget: [highest_proposal_id] and
    [highest_accepted_id] never decrease ([None] being the smallest), a
    proposed value once present stays present, and [network_uid] and
    [quorum_size] never change. *)
Theorem proposer_never_forgets (p : Proposer.t) (calls : list Proposer.call) :
  let p' := Proposer.run p calls in
  Proposer.network_uid p' = Proposer.network_uid p /\
  Proposer.quorum_size p' = Proposer.quorum_size p /\
  py_le (Some (Proposer.highest_proposal_id p))
        (Some (Proposer.highest_proposal_id p')) = true /\
  py_le (Proposer.highest_accepted_id p) (Proposer.highest_accepted_id p') = true /\
  (is_Some (Proposer.proposed_value p) -> is_Some (Proposer.proposed_value p')).
Proof. apply proposer_grows_run. Qed.

Lemma proposer_never_forgets_witness :
  let a1 := mkProposalID 1 "A" in
  let p := fst (Proposer.propose_value (Proposer.init "A" 1) "v") in
  let calls := [Proposer.CallPrepare;
                Proposer.CallReceive
                  (MNack (Nack.mk "X" "A" a1 (Some (mkProposalID 4 "B"))));
                Proposer.CallProposeValue "w"] in
  let p' := Proposer.run p calls in
  Proposer.proposed_value p = Some "v" /\
  Proposer.proposed_value p' = Some "v" /\
  Proposer.highest_proposal_id p' = mkProposalID 5 "A" /\
  is_Some (Proposer.proposed_value p').
Proof.
  intros a1 p calls p'. split; [reflexivity|]. split; [reflexivity|].
  split; [reflexivity|].
  destruct (proposer_never_forgets p calls) as (_ & _ & _ & _ & Hv).
  apply Hv. by eexists.
Defined.

(** X4. Each [prepare] issues a proposal number strictly above the one
    the previous [prepare] issued, whatever the proposer is handed in
    between. *)
Theorem prepare_numbers_increase (p : Proposer.t) (calls : list Proposer.call) :
  let first := Proposer.prepare p in
  let second := Proposer.prepare (Proposer.run (fst first) calls) in
  number (Prepare.proposal_id (snd first)) < number (Prepare.proposal_id (snd second)).
Proof.
  intros first second.
  destruct (proposer_grows_run calls (fst first)) as (_ & _ & Hle & _).
  apply py_le_number in Hle.
  destruct (prepare_proposal_id p) as (_ & _ & Hfirst). fold first in Hfirst.
  destruct (prepare_proposal_id (Proposer.run (fst first) calls)) as (Hsecond & _).
  fold second in Hsecond.
  rewrite Hfirst in Hle. rewrite Hsecond. cbn [number]. lia.
Qed.

(** X5. Once a proposal id has been observed, every later [prepare]
    issues an id strictly above it. *)
Theorem prepare_exceeds_observed (p : Proposer.t) (pid : ProposalID)
    (calls : list Proposer.call) :
  let p' := Proposer.run (fst (Proposer.observe_proposal p (Some pid))) calls in
  py_gt (Some (Prepare.proposal_id (snd (Proposer.prepare p')))) (Some pid) = true.
Proof.
  intros p'. apply py_gt_lt.
  destruct (observe_proposal_highest p pid) as [Hseen _].
  destruct (proposer_grows_run calls (fst (Proposer.observe_proposal p (Some pid))))
    as (_ & _ & Hle & _).
  fold p' in Hle.
  eapply py_le_lt_trans; [by eapply py_le_trans|].
  apply next_number_greater.
Qed.

(** X6. A reply to a round the proposer has left is only observed: after
    [prepare] has opened the next round, a [Promise] for the previous
    proposal id changes nothing and returns nothing, and a [Nack] for it
    that reports a promised id does no more than [observe_proposal] of
    that id. *)
Theorem abandoned_round_replies_ignored (u : string) (q : Z)
    (calls : list Proposer.call) (mp : Promise.t) (mn : Nack.t)
    (promised : ProposalID) :
  let p := Proposer.run (Proposer.init u q) calls in
  let p1 := fst (Proposer.prepare p) in
  (Promise.proposal_id mp = Proposer.proposal_id p ->
   Proposer.receive_promise p1 mp = (p1, Return None)) /\
  (Nack.proposal_id mn = Proposer.proposal_id p ->
   Nack.promised_proposal_id mn = Some promised ->
   Proposer.receive_nack p1 mn
   = (fst (Proposer.observe_proposal p1 (Some promised)), Return None)).
Proof.
  intros p p1.
  destruct (proposer_sound_run calls _ (proposer_sound_init u q)) as (_ & Hle & _).
  fold p in Hle.
  assert (Hlt : py_compare (Some (Proposer.proposal_id p))
                           (Some (Proposer.proposal_id p1)) = Lt).
  { eapply py_le_lt_trans; [exact Hle|]. apply next_number_greater. }
  split.
  - intros Hpid. unfold Proposer.receive_promise.
    rewrite observe_proposal_noop by (rewrite Hpid; by apply py_lt_le).
    cbn [and_then].
    rewrite (bool_decide_false (Promise.proposal_id mp = _)), andb_false_r; [done|].
    rewrite Hpid. by apply py_lt_ne.
  - intros Hpid Hn. unfold Proposer.receive_nack. rewrite Hn.
    destruct (observe_proposal_frame p1 promised) as (h & -> & _).
    cbn [and_then fst].
    rewrite (bool_decide_false (Nack.proposal_id mn = _)); [done|].
    rewrite Hpid. by apply py_lt_ne.
Qed.

Lemma abandoned_round_replies_ignored_witness :
  let a1 := mkProposalID 1 "A" in
  let calls := [Proposer.CallPrepare] in
  let p1 := fst (Proposer.prepare (Proposer.run (Proposer.init "A" 1) calls)) in
  let mp := Promise.mk "X" "A" a1 None None in
  let mn := Nack.mk "X" "A" a1 (Some (mkProposalID 7 "Z")) in
  Proposer.proposal_id p1 = mkProposalID 2 "A" /\
  Proposer.receive_promise p1 mp = (p1, Return None) /\
  Proposer.receive_nack p1 mn
  = (Proposer.set_highest_proposal_id (mkProposalID 7 "Z") p1, Return None).
Proof.
  intros a1 calls p1 mp mn. split; [reflexivity|].
  destruct (abandoned_round_replies_ignored "A" 1 calls mp mn (mkProposalID 7 "Z"))
    as [Hp Hn].
  split; [apply Hp; reflexivity|].
  etrans; [apply Hn; reflexivity | by vm_compute].
Defined.

(** X7. The only messages a proposer returns from [receive] are [Accept]
    and [Prepare].  An [Accept] comes from a proposer that has just
    become leader on a quorum of promises, and carries its uid, its
    current proposal id and its proposed value; a [Prepare] carries its
    uid and the proposal id of the round it has just opened. *)
Theorem proposer_replies (p : Proposer.t) (msg out : PaxosMessage) :
  snd (Proposer.receive p msg) = Return (Some out) ->
  let p' := fst (Proposer.receive p msg) in
  (exists a,
     out = MAccept a /\
     a = Accept.mk (Proposer.network_uid p') (Proposer.proposal_id p')
                   (Accept.proposal_value a) /\
     Proposer.proposed_value p' = Some (Accept.proposal_value a) /\
     Proposer.current_accept_msg p' = Some a /\
     Proposer.leader p = false /\ Proposer.leader p' = true /\
     exists promises,
       Proposer.promises_received p' = Some promises /\
       Z.of_nat (size promises) = Proposer.quorum_size p') \/
  (exists m,
     out = MPrepare m /\
     m = Prepare.mk (Proposer.network_uid p') (Proposer.proposal_id p') /\
     Proposer.current_prepare_msg p' = Some m /\
     Proposer.leader p' = false /\
     Proposer.promises_received p' = Some ∅ /\
     Proposer.nacks_received p' = Some ∅).
Proof.
  rewrite proposer_receive_cases. destruct msg as [m|m|m|m|m|m]; try done.
  - (* Nack *)
    destruct (Nack.promised_proposal_id m) as [promised|] eqn:Hn.
    2:{ by rewrite (receive_nack_without_promised_id p m Hn). }
    destruct (receive_nack_shape p m promised Hn)
      as (h & _ & [-> | (nacks & _ & _ & [-> | ->])]); try done.
    cbn [fst snd]. intros [= <-]. right. by eexists.
  - (* Promise *)
    destruct (receive_promise_shape p m)
      as (h & _ & [[_ [-> | [_ ->]]] | (Hld & _ & promises & _ & _ &
                                        [[_ ->] | (last & highest & _ & _ & ->)])]);
      try done.
    unfold promise_counted. cbn [fst snd].
    destruct (Z.of_nat (size ({[Promise.from_uid m]} ∪ promises))
              =? Proposer.quorum_size p) eqn:Hq; [|done].
    match goal with
    | |- context [MAccept <$> match ?x with _ => _ end] => destruct x as [v|] eqn:Hv
    end; [|done].
    intros [= <-]. left. eexists. split; [done|].
    cbn [Proposer.network_uid Proposer.proposal_id Proposer.proposed_value
         Proposer.current_accept_msg Proposer.leader Proposer.promises_received
         Proposer.quorum_size Accept.proposal_value].
    apply Z.eqb_eq in Hq. eauto 10.
Qed.

Lemma proposer_replies_witness :
  let a1 := mkProposalID 1 "A" in
  let p := fst (Proposer.prepare (Proposer.init "A" 1)) in
  let msg := MNack (Nack.mk "X" "A" a1 (Some (mkProposalID 5 "Z"))) in
  let out := MPrepare (Prepare.mk "A" (mkProposalID 6 "A")) in
  snd (Proposer.receive p msg) = Return (Some out) /\
  Proposer.current_prepare_msg (fst (Proposer.receive p msg))
    = Some (Prepare.mk "A" (mkProposalID 6 "A")) /\
  Proposer.leader (fst (Proposer.receive p msg)) = false.
Proof.
  intros a1 p msg out. split; [reflexivity|].
  destruct (proposer_replies p msg out)
    as [(a & Ha & _) | (m & Hm & _ & Hcur & Hld & _)];
    [reflexivity | discriminate |].
  injection Hm as <-. by split.
Defined.

(** X8. [propose_value] gives the proposer a value only when it has
    none: the value held afterwards is the one held before, if any, and
    else the proposed one.  An [Accept] is returned exactly when the
    proposer had no value and is leader, and carries the proposed value
    under the current proposal id.  A further [propose_value] changes
    nothing and returns nothing. *)
Theorem propose_value_first_wins (p : Proposer.t) (v w : string) :
  let r := Proposer.propose_value p v in
  Proposer.proposed_value (fst r)
    = Some (default v (Proposer.proposed_value p)) /\
  snd r = (if bool_decide (Proposer.proposed_value p = None) && Proposer.leader p
           then Some (Accept.mk (Proposer.network_uid p) (Proposer.proposal_id p) v)
           else None) /\
  Proposer.propose_value (fst r) w = (fst r, None).
Proof.
  unfold Proposer.propose_value.
  destruct p as [nu q ld pv pid hp ha pr nk cp ca].
  cbn [Proposer.proposed_value Proposer.set_proposed_value Proposer.leader
       Proposer.network_uid Proposer.proposal_id].
  destruct pv as [x|]; [done|]. by destruct ld.
Qed.

Lemma size_add_nonzero (s : gset string) (u : string) :
  Z.of_nat (size ({[ u ]} ∪ s)) <> 0.
Proof.
  assert (size ({[ u ]} ∪ s) <> 0%nat); [|lia].
  apply size_non_empty_iff. intros Hempty.
  assert (u ∈ ({[ u ]} ∪ s)) as Hin
    by (apply elem_of_union_l; by apply elem_of_singleton).
  rewrite Hempty in Hin. by apply not_elem_of_empty in Hin.
Qed.

Lemma size_add_positive (s : gset string) (u : string) :
  0 < Z.of_nat (size ({[ u ]} ∪ s)).
Proof. pose proof (size_add_nonzero s u). lia. Qed.

Lemma proposer_no_quorum_invoke (p : Proposer.t) (c : Proposer.call) :
  Proposer.quorum_size p <= 0 -> Proposer.leader p = false ->
  Proposer.leader (Proposer.invoke p c) = false.
Proof.
  intros Hq Hld. destruct c as [v| |pid|msg]; cbn [Proposer.invoke].
  - unfold Proposer.propose_value. destruct p as [nu q ld pv pid hp ha pr nk cp ca].
    cbn in *. subst ld. by destruct pv.
  - done.
  - destruct pid as [pid|]; [|done].
    by destruct (observe_proposal_frame p pid) as (h & -> & _).
  - rewrite proposer_receive_cases. destruct msg as [m|m|m|m|m|m]; try done.
    + destruct (Nack.promised_proposal_id m) as [promised|] eqn:Hn.
      2:{ by rewrite (receive_nack_without_promised_id p m Hn). }
      destruct (receive_nack_shape p m promised Hn)
        as (h & _ & [-> | (nacks & _ & _ & [-> | ->])]); done.
    + destruct (receive_promise_shape p m)
        as (h & _ & [[-> _] | (_ & _ & promises & _ & _ &
                               [[_ ->] | (last & highest & _ & _ & ->)])]);
        [done | done |].
      unfold promise_counted. cbn [fst Proposer.leader]. apply Z.eqb_neq.
      pose proof (size_add_positive promises (Promise.from_uid m)). lia.
Qed.

(** X9. With a quorum size of zero or less a proposer never becomes
    leader: a set of promises is never empty once a promise is in it. *)
Theorem proposer_without_quorum_never_leads (p : Proposer.t)
    (calls : list Proposer.call) :
  Proposer.quorum_size p <= 0 ->
  Proposer.leader p = false ->
  Proposer.leader (Proposer.run p calls) = false.
Proof.
  revert p. induction calls as [|c calls IH]; intros p Hq Hld; [done|].
  cbn [Proposer.run]. apply IH.
  - destruct (proposer_grows_invoke p c) as (_ & -> & _). done.
  - by apply proposer_no_quorum_invoke.
Qed.

Lemma proposer_without_quorum_never_leads_witness :
  let a1 := mkProposalID 1 "A" in
  let calls := [Proposer.CallPrepare;
                Proposer.CallReceive (MPromise (Promise.mk "X" "A" a1 None None));
                Proposer.CallProposeValue "v"] in
  Proposer.leader (Proposer.run (Proposer.init "A" 0) calls) = false.
Proof.
  intros a1 calls.
  apply (proposer_without_quorum_never_leads (Proposer.init "A" 0) calls).
  - by vm_compute.
  - reflexivity.
Defined.

(** X10. The value of a proposer is the first one it was handed.
    Whatever calls a proposer has been through since it was constructed,
    its [proposed_value] is the value of the first [propose_value] among
    them, or [None] if there was none: no [Promise] it receives changes
    it, whatever accepted value the promise reports. *)
Theorem proposer_value_is_first_proposed (u : string) (q : Z)
    (calls : list Proposer.call) :
  Proposer.proposed_value (Proposer.run (Proposer.init u q) calls)
  = first_proposed calls.
Proof.
  by destruct (proposer_stalled_run calls _ (proposer_stalled_init u q)) as [_ ->].
Qed.

(** ** Acceptor: what its replies mean *)

(** X11. An acceptor never answers below a promise it has made: a
    [Promise] or an [Accepted] it returns, however many messages later,
    is for a proposal id at least as high as any id it had promised
    before, and that id is its promise from then on. *)
Theorem acceptor_never_answers_below_promise
    (a : Acceptor.t) (ms : list PaxosMessage) (msg : PaxosMessage) :
  let r := Acceptor.receive (Acceptor.run a ms) msg in
  (forall m, snd r = Return (Some (MPromise m)) ->
     py_le (Acceptor.promised_id a) (Some (Promise.proposal_id m)) = true /\
     Acceptor.promised_id (fst r) = Some (Promise.proposal_id m)) /\
  (forall m, snd r = Return (Some (MAccepted m)) ->
     py_le (Acceptor.promised_id a) (Some (Accepted.proposal_id m)) = true /\
     Acceptor.promised_id (fst r) = Some (Accepted.proposal_id m) /\
     Acceptor.accepted_id (fst r) = Some (Accepted.proposal_id m) /\
     Acceptor.accepted_value (fst r) = Some (Accepted.proposal_value m)).
Proof.
  intros r. subst r.
  destruct (acceptor_run_monotone a ms) as [Hmono _].
  set (a1 := Acceptor.run a ms) in *.
  rewrite acceptor_receive_cases.
  destruct msg as [p|p|p|p|p|p]; try (split; intros m; discriminate).
  - destruct (Acceptor.promised_id a1) as [promised|] eqn:Hp.
    2:{ rewrite (acceptor_receive_prepare_unpromised a1 p Hp).
        split; intros m; discriminate. }
    rewrite (acceptor_receive_prepare_promised a1 p promised Hp).
    destruct (py_le (Some promised) (Some (Prepare.proposal_id p))) eqn:Hle;
      cbn [fst snd]; split; intros m; try discriminate.
    intros [= <-]. split; [by eapply py_le_trans | done].
  - destruct (Acceptor.promised_id a1) as [promised|] eqn:Hp.
    2:{ rewrite (acceptor_receive_accept_unpromised a1 p Hp).
        split; intros m; discriminate. }
    rewrite (acceptor_receive_accept_promised a1 p promised Hp).
    destruct (py_le (Some promised) (Some (Accept.proposal_id p))) eqn:Hle;
      cbn [fst snd]; split; intros m; try discriminate.
    intros [= <-]. split; [by eapply py_le_trans | done].
Qed.

Lemma acceptor_never_answers_below_promise_witness :
  let a := Acceptor.init "X" (Some (mkProposalID 2 "B")) None None in
  let ms := [MPrepare (Prepare.mk "A" (mkProposalID 1 "A"));
             MPrepare (Prepare.mk "C" (mkProposalID 3 "C"))] in
  let msg := MAccept (Accept.mk "C" (mkProposalID 3 "C") "v") in
  let m := Accepted.mk "X" (mkProposalID 3 "C") "v" in
  snd (Acceptor.receive (Acceptor.run a ms) msg) = Return (Some (MAccepted m)) /\
  py_le (Acceptor.promised_id a) (Some (Accepted.proposal_id m)) = true.
Proof.
  intros a ms msg m. split; [reflexivity|].
  destruct (acceptor_never_answers_below_promise a ms msg) as [_ Hacc].
  by destruct (Hacc m) as [Hle _].
Defined.

(** X12. A [Nack] tells the proposer what stands in its way: it names the
    rejected proposal id and its sender, and reports the acceptor's
    promised id, which is present and strictly above the rejected id. *)
Theorem acceptor_nack_reports_higher_promise
    (a : Acceptor.t) (msg : PaxosMessage) (n : Nack.t) :
  snd (Acceptor.receive a msg) = Return (Some (MNack n)) ->
  (exists promised,
     Acceptor.promised_id a = Some promised /\
     Nack.promised_proposal_id n = Some promised /\
     py_gt (Some promised) (Some (Nack.proposal_id n)) = true) /\
  Nack.from_uid n = Acceptor.network_uid a /\
  ((exists m, msg = MPrepare m /\ Nack.proposer_uid n = Prepare.from_uid m /\
              Nack.proposal_id n = Prepare.proposal_id m) \/
   (exists m, msg = MAccept m /\ Nack.proposer_uid n = Accept.from_uid m /\
              Nack.proposal_id n = Accept.proposal_id m)).
Proof.
  rewrite acceptor_receive_cases.
  destruct msg as [p|p|p|p|p|p]; try discriminate.
  - destruct (Acceptor.promised_id a) as [promised|] eqn:Hp.
    2:{ by rewrite (acceptor_receive_prepare_unpromised a p Hp). }
    rewrite (acceptor_receive_prepare_promised a p promised Hp).
    destruct (py_le (Some promised) (Some (Prepare.proposal_id p))) eqn:Hle;
      cbn [snd]; [discriminate|].
    intros [= <-]. cbn [Nack.promised_proposal_id Nack.proposal_id Nack.from_uid
                        Nack.proposer_uid].
    split; [|split; [done | left; by exists p]].
    exists promised. split; [done|]. split; [done|].
    by rewrite py_gt_le, Hle.
  - destruct (Acceptor.promised_id a) as [promised|] eqn:Hp.
    2:{ by rewrite (acceptor_receive_accept_unpromised a p Hp). }
    rewrite (acceptor_receive_accept_promised a p promised Hp).
    destruct (py_le (Some promised) (Some (Accept.proposal_id p))) eqn:Hle;
      cbn [snd]; [discriminate|].
    intros [= <-]. cbn [Nack.promised_proposal_id Nack.proposal_id Nack.from_uid
                        Nack.proposer_uid].
    split; [|split; [done | right; by exists p]].
    exists promised. split; [done|]. split; [done|].
    by rewrite py_gt_le, Hle.
Qed.

Lemma acceptor_nack_reports_higher_promise_witness :
  let a := Acceptor.init "X" (Some (mkProposalID 5 "Z")) None None in
  let msg := MAccept (Accept.mk "A" (mkProposalID 3 "A") "v") in
  let n := Nack.mk "X" "A" (mkProposalID 3 "A") (Some (mkProposalID 5 "Z")) in
  snd (Acceptor.receive a msg) = Return (Some (MNack n)) /\
  exists promised,
    Acceptor.promised_id a = Some promised /\
    Nack.promised_proposal_id n = Some promised /\
    py_gt (Some promised) (Some (Nack.proposal_id n)) = true.
Proof.
  intros a msg n. split; [reflexivity|].
  by destruct (acceptor_nack_reports_higher_promise a msg n) as [H _].
Defined.

(** X13. A message delivered to an acceptor a second time in a row gets
    the reply the first delivery got and leaves the state the first
    delivery left: a retried [Prepare] is promised again, a retried
    [Accept] accepted again, a rejected one rejected again. *)
Theorem acceptor_retransmission (a : Acceptor.t) (msg : PaxosMessage) :
  Acceptor.receive (fst (Acceptor.receive a msg)) msg = Acceptor.receive a msg.
Proof.
  rewrite !acceptor_receive_cases.
  destruct msg as [p|p|p|p|p|p]; try done.
  - destruct (Acceptor.promised_id a) as [promised|] eqn:Hp.
    2:{ rewrite (acceptor_receive_prepare_unpromised a p Hp). cbn [fst].
        by apply acceptor_receive_prepare_unpromised. }
    rewrite (acceptor_receive_prepare_promised a p promised Hp).
    destruct (py_le (Some promised) (Some (Prepare.proposal_id p))) eqn:Hle; cbn [fst].
    + erewrite acceptor_receive_prepare_promised by reflexivity.
      by rewrite py_le_refl.
    + rewrite (acceptor_receive_prepare_promised a p promised Hp). by rewrite Hle.
  - destruct (Acceptor.promised_id a) as [promised|] eqn:Hp.
    2:{ rewrite (acceptor_receive_accept_unpromised a p Hp). cbn [fst].
        by apply acceptor_receive_accept_unpromised. }
    rewrite (acceptor_receive_accept_promised a p promised Hp).
    destruct (py_le (Some promised) (Some (Accept.proposal_id p))) eqn:Hle; cbn [fst].
    + erewrite acceptor_receive_accept_promised by reflexivity.
      by rewrite py_le_refl.
    + rewrite (acceptor_receive_accept_promised a p promised Hp). by rewrite Hle.
Qed.

(** X14. An acceptor that has promised a proposal id accepts a value
    proposed under that very id: the leader can commit at the id of its
    own [Prepare]. *)
Theorem promise_then_accept (a : Acceptor.t) (prep : Prepare.t) (m : Promise.t)
    (from : string) (v : string) :
  snd (Acceptor.receive_prepare a prep) = Return (Some (MPromise m)) ->
  Promise.proposal_id m = Prepare.proposal_id prep /\
  Acceptor.receive_accept (fst (Acceptor.receive_prepare a prep))
                          (Accept.mk from (Promise.proposal_id m) v)
  = (Acceptor.mk (Acceptor.network_uid a)
       (Some (Promise.proposal_id m)) (Some (Promise.proposal_id m)) (Some v),
     Return (Some (MAccepted
       (Accepted.mk (Acceptor.network_uid a) (Promise.proposal_id m) v)))).
Proof.
  destruct (Acceptor.promised_id a) as [promised|] eqn:Hp.
  2:{ by rewrite (acceptor_receive_prepare_unpromised a prep Hp). }
  rewrite (acceptor_receive_prepare_promised a prep promised Hp).
  destruct (py_le (Some promised) (Some (Prepare.proposal_id prep)));
    cbn [fst snd]; [|discriminate].
  intros [= <-]. split; [done|].
  erewrite acceptor_receive_accept_promised by reflexivity.
  cbn [Accept.proposal_id Promise.proposal_id Accept.proposal_value
       Acceptor.network_uid].
  by rewrite py_le_refl.
Qed.

Lemma promise_then_accept_witness :
  let a := Acceptor.init "X" (Some (mkProposalID 1 "A")) (Some (mkProposalID 1 "A"))
                         (Some "old") in
  let prep := Prepare.mk "B" (mkProposalID 2 "B") in
  let m := Promise.mk "X" "B" (mkProposalID 2 "B") (Some (mkProposalID 1 "A"))
                      (Some "old") in
  snd (Acceptor.receive_prepare a prep) = Return (Some (MPromise m)) /\
  snd (Acceptor.receive_accept (fst (Acceptor.receive_prepare a prep))
         (Accept.mk "B" (mkProposalID 2 "B") "old"))
  = Return (Some (MAccepted (Accepted.mk "X" (mkProposalID 2 "B") "old"))).
Proof.
  intros a prep m. split; [reflexivity|].
  destruct (promise_then_accept a prep m "B" "old") as [_ H]; [reflexivity|].
  exact (f_equal snd H).
Defined.

Lemma accepted_from_weaken (sent sent' : PaxosMessage -> Prop) (a0 a : Acceptor.t) :
  (forall x, sent x -> sent' x) -> accepted_from sent a0 a -> accepted_from sent' a0 a.
Proof.
  intros Hsub [H | (from & i & v & Hi & Hv & Hsent)]; [by left|].
  right. exists from, i, v. auto.
Qed.

Lemma accepted_from_receive (sent : PaxosMessage -> Prop) (a0 a : Acceptor.t)
    (msg : PaxosMessage) :
  accepted_from sent a0 a ->
  accepted_from (fun x => sent x \/ x = msg) a0 (fst (Acceptor.receive a msg)).
Proof.
  intros Hacc. rewrite acceptor_receive_cases.
  assert (Hkeep : accepted_from (fun x => sent x \/ x = msg) a0 a).
  { eapply accepted_from_weaken; [|exact Hacc]. auto. }
  destruct msg as [p|p|p|p|p|p]; try done.
  - unfold Acceptor.receive_prepare.
    destruct (Acceptor.promised_id a); [|done].
    destruct (ProposalID_ge _ _); cbn [fst]; [|done].
    destruct Hkeep as [H | H]; [by left | by right].
  - unfold Acceptor.receive_accept.
    destruct (Acceptor.promised_id a); [|done].
    destruct (ProposalID_ge _ _); cbn [fst]; [|done].
    right. exists (Accept.from_uid p), (Accept.proposal_id p), (Accept.proposal_value p).
    split; [done|]. split; [done|]. right. by destruct p.
Qed.

Lemma accepted_from_run (ms : list PaxosMessage) (sent : PaxosMessage -> Prop)
    (a0 a : Acceptor.t) :
  accepted_from sent a0 a ->
  accepted_from (fun x => sent x \/ x ∈ ms) a0 (Acceptor.run a ms).
Proof.
  revert sent a. induction ms as [|msg ms IH]; intros sent a Hacc; cbn [Acceptor.run].
  - eapply accepted_from_weaken; [|exact Hacc]. auto.
  - eapply accepted_from_weaken; [|apply IH, accepted_from_receive, Hacc].
    intros x [[Hx | ->] | Hx]; [by left | right; by left | right; by right].
Qed.

Lemma acceptor_run_network_uid (ms : list PaxosMessage) (a : Acceptor.t) :
  Acceptor.network_uid (Acceptor.run a ms) = Acceptor.network_uid a.
Proof.
  revert a. induction ms as [|x ms IH]; intros a; [done|]. cbn [Acceptor.run].
  rewrite IH, acceptor_receive_cases. destruct x; try done.
  - apply acceptor_receive_prepare_shared.
  - apply acceptor_receive_accept_shared.
Qed.

(** X15. An acceptor invents nothing.  After any messages, an acceptor
    holds as accepted either the id and value it was constructed with or
    the id and the value of an [Accept] it was sent; and a [Promise] it
    returns reports exactly the pair it holds, under the uid of the
    acceptor and to the sender of the [Prepare]. *)
Theorem acceptor_reports_what_it_accepted (a0 : Acceptor.t) (ms : list PaxosMessage)
    (prep : Prepare.t) (m : Promise.t) :
  let a := Acceptor.run a0 ms in
  snd (Acceptor.receive_prepare a prep) = Return (Some (MPromise m)) ->
  Promise.from_uid m = Acceptor.network_uid a0 /\
  Promise.proposer_uid m = Prepare.from_uid prep /\
  Promise.last_accepted_id m = Acceptor.accepted_id a /\
  Promise.last_accepted_value m = Acceptor.accepted_value a /\
  ((Promise.last_accepted_id m = Acceptor.accepted_id a0 /\
    Promise.last_accepted_value m = Acceptor.accepted_value a0) \/
   exists from i v,
     Promise.last_accepted_id m = Some i /\
     Promise.last_accepted_value m = Some v /\
     MAccept (Accept.mk from i v) ∈ ms).
Proof.
  intros a.
  assert (Hacc : accepted_from (fun x => x ∈ ms) a0 a).
  { eapply accepted_from_weaken;
      [|apply (accepted_from_run ms (fun _ => False)); by left].
    by intros x [[] | Hx]. }
  assert (Hu : Acceptor.network_uid a = Acceptor.network_uid a0)
    by (subst a; by rewrite acceptor_run_network_uid).
  unfold Acceptor.receive_prepare.
  destruct (Acceptor.promised_id a); [|discriminate].
  destruct (ProposalID_ge _ _); cbn [snd]; [|discriminate].
  intros [= <-].
  cbn [Promise.from_uid Promise.proposer_uid Promise.last_accepted_id
       Promise.last_accepted_value Acceptor.network_uid Acceptor.accepted_id
       Acceptor.accepted_value].
  done.
Qed.

Lemma acceptor_reports_what_it_accepted_witness :
  let a1 := mkProposalID 1 "A" in
  let a0 := Acceptor.init "X" (Some a1) None None in
  let ms := [MPrepare (Prepare.mk "A" a1); MAccept (Accept.mk "A" a1 "v1")] in
  let prep := Prepare.mk "B" (mkProposalID 2 "B") in
  let m := Promise.mk "X" "B" (mkProposalID 2 "B") (Some a1) (Some "v1") in
  snd (Acceptor.receive_prepare (Acceptor.run a0 ms) prep)
    = Return (Some (MPromise m)) /\
  ((Promise.last_accepted_id m = Acceptor.accepted_id a0 /\
    Promise.last_accepted_value m = Acceptor.accepted_value a0) \/
   exists from i v,
     Promise.last_accepted_id m = Some i /\
     Promise.last_accepted_value m = Some v /\
     MAccept (Accept.mk from i v) ∈ ms).
Proof.
  intros a1 a0 ms prep m. split; [reflexivity|].
  by destruct (acceptor_reports_what_it_accepted a0 ms prep m) as (_ & _ & _ & _ & H).
Defined.

(** X20. An acceptor constructed without a promised id never answers:
    every [Prepare] and every [Accept] raises [TypeError] on the
    comparison with [promised_id], and whatever messages it is sent it
    stays as it was constructed. *)
Theorem acceptor_without_promise_never_answers (u : string)
    (accepted_id : option ProposalID) (accepted_value : option string)
    (ms : list PaxosMessage) :
  let a := Acceptor.init u None accepted_id accepted_value in
  Acceptor.run a ms = a /\
  (forall m, Acceptor.receive a (MPrepare m) = (a, Raise TypeError)) /\
  (forall m, Acceptor.receive a (MAccept m) = (a, Raise TypeError)).
Proof.
  intros a. split; [|by split].
  induction ms as [|msg ms IH]; [done|]. cbn [Acceptor.run].
  rewrite acceptor_receive_cases. by destruct msg.
Qed.

(** ** Acceptor and proposer together *)

Lemma receive_nack_observes (p : Proposer.t) (n : Nack.t) (promised : ProposalID) :
  Nack.promised_proposal_id n = Some promised ->
  py_le (Some promised)
        (Some (Proposer.highest_proposal_id (fst (Proposer.receive_nack p n)))) = true.
Proof.
  intros Hn.
  destruct (observe_proposal_highest p promised) as [Hseen _].
  destruct (receive_nack_shape p n promised Hn)
    as (h & Hh & [-> | (nacks & _ & _ & [-> | ->])]);
    rewrite Hh in Hseen; cbn [fst] in *; try done.
  eapply py_le_trans; [exact Hseen|].
  apply py_lt_le, next_number_greater.
Qed.

(** X16. A rejection tells the proposer enough.  If an acceptor answers
    a [Prepare] with a [Nack] and the proposer receives that [Nack],
    then, whatever the proposer is handed afterwards, the [Prepare] of
    its next [prepare] carries a proposal id above the promised id the
    [Nack] reported; so the acceptor, if it has received nothing since
    it sent the [Nack], answers that [Prepare] with a [Promise]. *)
Theorem nack_then_prepare_is_promised (a : Acceptor.t) (rejected : Prepare.t)
    (n : Nack.t) (p : Proposer.t) (calls : list Proposer.call) :
  Acceptor.receive_prepare a rejected = (a, Return (Some (MNack n))) ->
  let p' := Proposer.run (fst (Proposer.receive_nack p n)) calls in
  let retry := snd (Proposer.prepare p') in
  py_gt (Some (Prepare.proposal_id retry)) (Nack.promised_proposal_id n) = true /\
  exists m,
    snd (Acceptor.receive_prepare a retry) = Return (Some (MPromise m)) /\
    Promise.proposal_id m = Prepare.proposal_id retry /\
    Promise.proposer_uid m = Proposer.network_uid p.
Proof.
  intros Hnack p' retry.
  destruct (Acceptor.promised_id a) as [promised|] eqn:Hp.
  2:{ by rewrite (acceptor_receive_prepare_unpromised a rejected Hp) in Hnack. }
  rewrite (acceptor_receive_prepare_promised a rejected promised Hp) in Hnack.
  destruct (py_le (Some promised) (Some (Prepare.proposal_id rejected)))
    eqn:Hle; [discriminate|].
  injection Hnack as <-.
  pose proof (receive_nack_observes p
                (Nack.mk (Acceptor.network_uid a) (Prepare.from_uid rejected)
                   (Prepare.proposal_id rejected) (Some promised))
                promised eq_refl) as Hobs.
  destruct (proposer_grows_run calls
              (fst (Proposer.receive_nack p
                 (Nack.mk (Acceptor.network_uid a) (Prepare.from_uid rejected)
                    (Prepare.proposal_id rejected) (Some promised)))))
    as (Hu & _ & Hgrow & _).
  destruct (proposer_grows_receive_nack p
              (Nack.mk (Acceptor.network_uid a) (Prepare.from_uid rejected)
                 (Prepare.proposal_id rejected) (Some promised))) as (Hu' & _).
  fold p' in Hgrow, Hu.
  assert (Hlt : py_compare (Some promised) (Some (Prepare.proposal_id retry)) = Lt).
  { eapply py_le_lt_trans; [by eapply py_le_trans|]. apply next_number_greater. }
  split; [by apply py_gt_lt|].
  rewrite (acceptor_receive_prepare_promised a retry promised Hp), (py_lt_le _ _ Hlt).
  eexists. split; [done|]. split; [done|].
  cbn [Promise.proposer_uid]. subst retry. cbn. congruence.
Qed.

Lemma nack_then_prepare_is_promised_witness :
  let a := Acceptor.init "X" (Some (mkProposalID 5 "Z")) None None in
  let p := fst (Proposer.prepare (Proposer.init "A" 2)) in
  let rejected := Prepare.mk "A" (mkProposalID 1 "A") in
  let n := Nack.mk "X" "A" (mkProposalID 1 "A") (Some (mkProposalID 5 "Z")) in
  let retry := snd (Proposer.prepare (fst (Proposer.receive_nack p n))) in
  Acceptor.receive_prepare a rejected = (a, Return (Some (MNack n))) /\
  retry = Prepare.mk "A" (mkProposalID 6 "A") /\
  exists m, snd (Acceptor.receive_prepare a retry) = Return (Some (MPromise m)).
Proof.
  intros a p rejected n retry. split; [reflexivity|]. split; [reflexivity|].
  destruct (nack_then_prepare_is_promised a rejected n p []) as (_ & m & Hm & _);
    [reflexivity|].
  by exists m.
Defined.

(** X17. What a PaxosInstance sees as acceptor it knows as proposer:
    after it has received a [Prepare] or an [Accept], its own next
    [prepare] issues a proposal id strictly above the one in that
    message. *)
Theorem paxos_instance_prepare_exceeds_seen (s : PaxosInstance.t) :
  (forall m : Prepare.t,
     let s' := fst (PaxosInstance.receive s (MPrepare m)) in
     py_gt (Some (Prepare.proposal_id (snd (PaxosInstance.prepare s'))))
           (Some (Prepare.proposal_id m)) = true) /\
  (forall m : Accept.t,
     let s' := fst (PaxosInstance.receive s (MAccept m)) in
     py_gt (Some (Prepare.proposal_id (snd (PaxosInstance.prepare s'))))
           (Some (Accept.proposal_id m)) = true).
Proof.
  assert (Hprep : forall (s' : PaxosInstance.t) (pid : ProposalID),
            py_le (Some pid)
                  (Some (Proposer.highest_proposal_id (PaxosInstance.as_proposer s')))
              = true ->
            py_gt (Some (Prepare.proposal_id (snd (PaxosInstance.prepare s'))))
                  (Some pid) = true).
  { intros s' pid Hle. apply py_gt_lt.
    eapply py_le_lt_trans; [exact Hle|].
    unfold PaxosInstance.prepare.
    destruct (prepare_proposal_id (PaxosInstance.as_proposer s')) as (Hid & _).
    destruct (Proposer.prepare (PaxosInstance.as_proposer s')) as [p1 msg].
    cbn [snd] in *. rewrite Hid. apply next_number_greater. }
  split; intros m s'; apply Hprep; subst s'; rewrite paxos_instance_receive_cases.
  - unfold PaxosInstance.receive_prepare.
    destruct (paxos_instance_observe_proposal s (Prepare.proposal_id m))
      as (s0 & -> & Hp & Ha & _ & Hu). cbn [and_then].
    destruct (inherit_acceptor Acceptor.receive_prepare s0 m) as (_ & _ & -> & _).
    { by rewrite acceptor_receive_prepare_shared. }
    rewrite Hp. apply (observe_proposal_highest (PaxosInstance.as_proposer s)).
  - unfold PaxosInstance.receive_accept.
    destruct (paxos_instance_observe_proposal s (Accept.proposal_id m))
      as (s0 & -> & Hp & Ha & _ & Hu). cbn [and_then].
    destruct (inherit_acceptor Acceptor.receive_accept s0 m) as (_ & _ & -> & _).
    { by rewrite acceptor_receive_accept_shared. }
    rewrite Hp. apply (observe_proposal_highest (PaxosInstance.as_proposer s)).
Qed.

(** ** Learner *)

Lemma learner_revoke_vote_frame (l : Learner.t) (last_pn : option ProposalID)
    (u : string) :
  exists props,
    fst (Learner.revoke_vote l last_pn u) = Learner.set_proposals props l.
Proof.
  unfold Learner.revoke_vote. destruct l as [nu q props accs fv fa fp]. simpl.
  repeat (case_match; simpl; eauto).
Qed.

(** [count_vote] either resolves, returning the [Resolution] of the
    message's value, or only rewrites [proposals] and returns no message. *)
Lemma learner_count_vote_cases (l : Learner.t) (m : Accepted.t) :
  (exists acc,
     Learner.count_vote l m
     = (Learner.mk (Learner.network_uid l) (Learner.quorum_size l) None None
          (Some (Accepted.proposal_value m))
          (Some ({[ Accepted.from_uid m ]} ∪ acc))
          (Some (Accepted.proposal_id m)),
        Return (Some (MResolution
          (Resolution.mk (Learner.network_uid l) (Accepted.proposal_value m)))))) \/
  (exists props o,
     Learner.count_vote l m = (Learner.set_proposals props l, o) /\
     (o = Return None \/ exists e, o = Raise e)).
Proof.
  unfold Learner.count_vote. destruct l as [nu q props accs fv fa fp]. simpl.
  destruct props as [props|]; [|right; eauto 10].
  destruct (props !! Accepted.proposal_id m) as [ps|]; simpl;
    (case_bool_decide; simpl; [|right; by eauto 10]);
    (case_match; simpl; [left; by eauto | right; by eauto 10]).
Qed.

(** The first [Accepted] of a sender: the learner has no entry for it to
    compare the proposal id with, and raises. *)
Lemma learner_first_vote_raises (l : Learner.t) (m : Accepted.t)
    (accs : gmap string ProposalID) :
  Learner.final_value l = None ->
  Learner.acceptors l = Some accs ->
  accs !! Accepted.from_uid m = None ->
  Learner.receive_accepted l m = (l, Raise TypeError).
Proof.
  intros Hv Haccs Hnone. unfold Learner.receive_accepted.
  by rewrite Hv, Haccs, Hnone.
Qed.

(** The branches of [receive_accepted] on a sender that has an entry. *)
Lemma learner_receive_accepted_known (l : Learner.t) (m : Accepted.t)
    (accs : gmap string ProposalID) (last : ProposalID) :
  Learner.final_value l = None ->
  Learner.acceptors l = Some accs ->
  accs !! Accepted.from_uid m = Some last ->
  Learner.receive_accepted l m =
  if py_le (Some (Accepted.proposal_id m)) (Some last) then (l, Return None)
  else
    match Learner.revoke_vote
            (Learner.set_acceptors
               (Some (<[Accepted.from_uid m := Accepted.proposal_id m]> accs)) l)
            (Some last) (Accepted.from_uid m) with
    | (l1, Some e) => (l1, Raise e)
    | (l1, None) => Learner.count_vote l1 m
    end.
Proof.
  intros Hv Haccs Hlast. unfold Learner.receive_accepted.
  by rewrite Hv, Haccs, Hlast.
Qed.

(** A resolved learner stays resolved on the same value.  It answers
    with the [Resolution] of that value, unless it lacks
    [final_proposal_id] or [final_acceptors], as no learner that resolved
    by itself does. *)
Lemma learner_resolved_step (l : Learner.t) (v : string) (m : Accepted.t) :
  Learner.final_value l = Some v ->
  let r := Learner.receive_accepted l m in
  let reply :=
    Return (Some (MResolution (Resolution.mk (Learner.network_uid l) v))) in
  Learner.final_value (fst r) = Some v /\
  Learner.network_uid (fst r) = Learner.network_uid l /\
  Learner.final_proposal_id (fst r) = Learner.final_proposal_id l /\
  (snd r = reply \/ snd r = Raise AttributeError \/ snd r = Raise TypeError) /\
  (is_Some (Learner.final_acceptors l) -> is_Some (Learner.final_proposal_id l) ->
   snd r = reply /\ is_Some (Learner.final_acceptors (fst r))).
Proof.
  intros Hv. unfold Learner.receive_accepted. rewrite Hv.
  unfold Learner.already_resolved.
  destruct l as [nu q props accs fv fa fp]. simpl in *.
  destruct fp as [fp|]; simpl.
  2:{ repeat (split; [done|]). split; [auto|]. by intros _ [? ?]. }
  destruct (ProposalID_ge _ _ && bool_decide _); simpl.
  - destruct fa as [fa|]; simpl.
    + repeat (split; [done|]). split; [by left|]. eauto.
    + repeat (split; [done|]). split; [auto|]. by intros [? ?].
  - repeat (split; [done|]). split; [by left|]. eauto.
Qed.










(** ** A learner as the constructor builds it *)

(** A new learner has heard of no acceptor, so every [Accepted] is some
    sender's first and raises, leaving the learner new. *)
Lemma learner_run_init (u : string) (q : Z) (ms : list Accepted.t) :
  Learner.run (Learner.init u q) ms
  = (Learner.init u q, (fun _ => Raise TypeError) <$> ms).
Proof.
  induction ms as [|m ms IH]; [done|]. cbn [Learner.run].
  rewrite (learner_first_vote_raises (Learner.init u q) m ∅) by done.
  by rewrite IH.
Qed.

(** C6, where the code parts from it.  The first [Accepted] a new
    learner receives raises [TypeError] on the comparison with the
    sender's missing entry and records nothing; delivered again it is
    not filtered as stale but raises again, and the learner is still
    new. *)
Theorem first_accepted_raises_on_both_deliveries (u : string) (q : Z)
    (m : Accepted.t) :
  let l := Learner.init u q in
  let r1 := Learner.receive l (MAccepted m) in
  let r2 := Learner.receive (fst r1) (MAccepted m) in
  r1 = (l, Raise TypeError) /\ r2 = (l, Raise TypeError).
Proof. done. Qed.


(** X18. A learner never counts a vote.  Every [Accepted] sent to a
    learner since it was constructed raises [TypeError], and the learner
    is afterwards as it was constructed; the same holds of the learner
    part of a PaxosInstance. *)
Theorem learner_never_counts_a_vote (u : string) (q : Z) :
  (forall ms : list Accepted.t,
     Learner.run (Learner.init u q) ms
     = (Learner.init u q, (fun _ => Raise TypeError) <$> ms)) /\
  (forall (promised_id accepted_id : option ProposalID)
          (accepted_value : option string) (m : Accepted.t),
     let s := PaxosInstance.init u q promised_id accepted_id accepted_value in
     PaxosInstance.receive s (MAccepted m) = (s, Raise TypeError)).
Proof.
  split; [apply learner_run_init | done].
Qed.

(** X19. With a quorum size of zero or less a learner never resolves:
    no vote gets as far as the comparison with [quorum_size], and a count
    that did would be at least one by then. *)
Theorem learner_without_quorum_never_resolves (u : string) (q : Z)
    (ms : list Accepted.t) :
  q <= 0 ->
  Learner.final_value (fst (Learner.run (Learner.init u q) ms)) = None /\
  forall r, Return (Some (MResolution r)) ∉ snd (Learner.run (Learner.init u q) ms).
Proof.
  intros _. rewrite learner_run_init. cbn [fst snd]. split; [done|].
  intros r (m & Hm & _)%list_elem_of_fmap. discriminate.
Qed.

Lemma learner_without_quorum_never_resolves_witness :
  let a1 := mkProposalID 1 "A" in
  let ms := [Accepted.mk "X" a1 "v"; Accepted.mk "Y" a1 "v"] in
  Learner.final_value (fst (Learner.run (Learner.init "L" 0) ms)) = None.
Proof.
  intros a1 ms.
  by destruct (learner_without_quorum_never_resolves "L" 0 ms) as [H _].
Defined.

(** ** Dispatch *)

(** X22. [receive] hands every message to the [receive_*] method named
    after the message's class: [Nack] and [Promise] to the Proposer's
    methods, [Prepare] and [Accept] to the Acceptor's, [Accepted] to the
    Learner's.  On a PaxosInstance [Prepare] and [Accept] reach the
    overriding methods of PaxosInstance, not the Acceptor's own, and the
    other three the inherited ones.  Everything else is refused with
    [InvalidMessageError]. *)
Theorem receive_dispatches_by_class (msg : PaxosMessage) :
  (forall p : Proposer.t,
     Proposer.receive p msg =
     match msg with
     | MNack m => Proposer.receive_nack p m
     | MPromise m => Proposer.receive_promise p m
     | _ => (p, Raise InvalidMessageError)
     end) /\
  (forall a : Acceptor.t,
     Acceptor.receive a msg =
     match msg with
     | MPrepare m => Acceptor.receive_prepare a m
     | MAccept m => Acceptor.receive_accept a m
     | _ => (a, Raise InvalidMessageError)
     end) /\
  (forall l : Learner.t,
     Learner.receive l msg =
     match msg with
     | MAccepted m => Learner.receive_accepted l m
     | _ => (l, Raise InvalidMessageError)
     end) /\
  (forall s : PaxosInstance.t,
     PaxosInstance.receive s msg =
     match msg with
     | MPrepare m => PaxosInstance.receive_prepare s m
     | MAccept m => PaxosInstance.receive_accept s m
     | MNack m => PaxosInstance.receive_nack s m
     | MPromise m => PaxosInstance.receive_promise s m
     | MAccepted m => PaxosInstance.receive_accepted s m
     | MResolution _ => (s, Raise InvalidMessageError)
     end).
Proof. by destruct msg. Qed.

(** ** A message delivered twice *)

Lemma receive_promise_observed (p : Proposer.t) (m : Promise.t) :
  Proposer.receive_promise p m
  = Proposer.receive_promise
      (fst (Proposer.observe_proposal p (Some (Promise.proposal_id m)))) m.
Proof.
  unfold Proposer.receive_promise. rewrite observe_proposal_idem.
  by destruct (observe_proposal_frame p (Promise.proposal_id m)) as (h & -> & _).
Qed.

(** After a [Promise] was delivered the proposer is leader, or in another
    round, or has no promise set, or holds the sender's promise. *)
Lemma receive_promise_blocks (p : Proposer.t) (m : Promise.t) :
  let p1 := fst (Proposer.receive_promise p m) in
  Proposer.highest_proposal_id p1
    = Proposer.highest_proposal_id
        (fst (Proposer.observe_proposal p (Some (Promise.proposal_id m)))) /\
  (Proposer.leader p1 = true \/
   Promise.proposal_id m <> Proposer.proposal_id p1 \/
   (Proposer.promises_received p1 = None /\
    snd (Proposer.receive_promise p m) = Raise TypeError) \/
   exists promises, Proposer.promises_received p1 = Some promises /\
                    Promise.from_uid m ∈ promises).
Proof.
  unfold Proposer.receive_promise.
  destruct (observe_proposal_frame p (Promise.proposal_id m)) as (h & -> & _).
  cbn [and_then fst].
  generalize (Proposer.set_highest_proposal_id h p).
  clear p. intros [nu q ld pv pid hp ha pr nk cp ca]. simpl.
  destruct ld; simpl; [eauto|].
  case_bool_decide as Hpid; simpl; [|eauto].
  destruct pr as [promises|]; simpl; [|eauto 10].
  case_bool_decide as Hin; simpl.
  - assert (Promise.from_uid m ∈ ({[Promise.from_uid m]} ∪ promises)) by set_solver.
    destruct (Promise.last_accepted_id m) as [last|]; [|simpl; eauto 10].
    destruct ha as [highest|]; [|simpl; eauto 10].
    destruct (ProposalID_gt last highest);
      destruct (Promise.last_accepted_value m) as [v|]; simpl;
      destruct (Z.of_nat (size ({[Promise.from_uid m]} ∪ promises)) =? q); simpl;
      destruct pv as [w|]; simpl; eauto 10.
  - split; [done|]. right. right. right. by exists promises.
Qed.

Lemma receive_promise_blocked (p : Proposer.t) (m : Promise.t) :
  py_le (Some (Promise.proposal_id m)) (Some (Proposer.highest_proposal_id p)) = true ->
  (Proposer.leader p = true \/
   Promise.proposal_id m <> Proposer.proposal_id p \/
   Proposer.promises_received p = None \/
   exists promises, Proposer.promises_received p = Some promises /\
                    Promise.from_uid m ∈ promises) ->
  fst (Proposer.receive_promise p m) = p /\
  (snd (Proposer.receive_promise p m) = Return None \/
   (Proposer.promises_received p = None /\
    snd (Proposer.receive_promise p m) = Raise TypeError)).
Proof.
  intros Hle Hblocked. unfold Proposer.receive_promise.
  rewrite (observe_proposal_noop p _ Hle). cbn [and_then].
  destruct (Proposer.leader p) eqn:Hld; simpl; [eauto|].
  case_bool_decide as Hpid; simpl; [|eauto].
  destruct (Proposer.promises_received p) as [promises|] eqn:Hpr; simpl; [|eauto].
  destruct Hblocked as [? | [? | [? | (promises' & [= <-] & Hin)]]]; try done.
  rewrite bool_decide_false; [eauto | by intros ?].
Qed.

(** A second delivery of a [Promise] changes nothing and returns nothing;
    before the first [prepare], when there is no promise set to look the
    sender up in, both deliveries raise [TypeError]. *)
Lemma proposer_receive_promise_twice (p : Proposer.t) (m : Promise.t) :
  let r1 := Proposer.receive_promise p m in
  let r2 := Proposer.receive_promise (fst r1) m in
  fst r2 = fst r1 /\
  (snd r2 = Return None \/ (snd r1 = Raise TypeError /\ snd r2 = Raise TypeError)).
Proof.
  intros r1 r2. subst r2.
  destruct (receive_promise_blocks p m) as [Hhigh Hblocked]. fold r1 in Hhigh, Hblocked.
  destruct (observe_proposal_highest p (Promise.proposal_id m)) as [Hle _].
  rewrite <- Hhigh in Hle.
  destruct (receive_promise_blocked (fst r1) m Hle) as [Hfst Hsnd].
  - destruct Hblocked as [? | [? | [[? ?] | ?]]]; eauto.
  - split; [done|].
    destruct Hsnd as [? | [Hnone Hraise]]; [by left|].
    destruct Hblocked as [Hld | [Hne | [[_ Hr1] | (promises & Hsome & _)]]].
    + left. revert Hraise. unfold Proposer.receive_promise.
      rewrite (observe_proposal_noop _ _ Hle). cbn [and_then]. rewrite Hld. done.
    + left. revert Hraise. unfold Proposer.receive_promise.
      rewrite (observe_proposal_noop _ _ Hle). cbn [and_then].
      rewrite (bool_decide_false _ Hne), andb_false_r. done.
    + by right.
    + congruence.
Qed.

Lemma learner_receive_accepted_stale (l : Learner.t) (m : Accepted.t)
    (accs : gmap string ProposalID) :
  Learner.final_value l = None ->
  Learner.acceptors l = Some accs ->
  accs !! Accepted.from_uid m = Some (Accepted.proposal_id m) ->
  Learner.receive_accepted l m = (l, Return None).
Proof.
  intros Hv Haccs Hlast.
  rewrite (learner_receive_accepted_known l m accs _ Hv Haccs Hlast).
  by rewrite py_le_refl.
Qed.

Lemma learner_already_resolved_twice (l : Learner.t) (v : string) (m : Accepted.t) :
  Learner.final_value l = Some v ->
  let r1 := Learner.receive_accepted l m in
  let r2 := Learner.receive_accepted (fst r1) m in
  fst r2 = fst r1 /\ snd r2 = snd r1.
Proof.
  intros Hv r1 r2. subst r2 r1.
  assert (Hr1 : Learner.receive_accepted l m = Learner.already_resolved l v m)
    by (unfold Learner.receive_accepted; by rewrite Hv).
  rewrite Hr1. clear Hr1. unfold Learner.already_resolved.
  destruct l as [nu q props accs fv fa fp]. simpl in *. subst fv.
  destruct fp as [fp|]; simpl; [|done].
  destruct (ProposalID_ge (Accepted.proposal_id m) fp
            && bool_decide (Accepted.proposal_value m = v)) eqn:Hguard; simpl.
  - destruct fa as [fa|]; simpl.
    + unfold Learner.receive_accepted, Learner.already_resolved. simpl.
      rewrite Hguard. simpl.
      assert ({[Accepted.from_uid m]} ∪ ({[Accepted.from_uid m]} ∪ fa)
              = {[Accepted.from_uid m]} ∪ fa) as ->
        by (by rewrite (assoc_L (∪)), (idemp_L (∪))).
      done.
    + unfold Learner.receive_accepted, Learner.already_resolved. simpl.
      by rewrite Hguard.
  - unfold Learner.receive_accepted, Learner.already_resolved. simpl.
    by rewrite Hguard.
Qed.

(** A second delivery of an [Accepted] leaves the learner as the first
    delivery left it.  It is filtered as stale and returns nothing, or
    it ends as the first delivery did: with the [Resolution] of the
    final value on a resolved learner, or with the exception the first
    raised where the learner has nothing to compare with or lacks an
    attribute. *)
Lemma learner_receive_accepted_twice (l : Learner.t) (m : Accepted.t) :
  let r1 := Learner.receive_accepted l m in
  let r2 := Learner.receive_accepted (fst r1) m in
  fst r2 = fst r1 /\
  (snd r2 = Return None \/
   (snd r2 = snd r1 /\
    ((exists v, Learner.final_value (fst r1) = Some v /\
                snd r1 = Return (Some (MResolution
                           (Resolution.mk (Learner.network_uid l) v)))) \/
     snd r1 = Raise AttributeError \/
     snd r1 = Raise TypeError))).
Proof.
  intros r1 r2.
  destruct (Learner.final_value l) as [v|] eqn:Hv.
  { destruct (learner_already_resolved_twice l v m Hv) as [Hfst Hsnd].
    fold r1 in Hfst, Hsnd. fold r2 in Hfst, Hsnd.
    destruct (learner_resolved_step l v m Hv) as (Hv' & _ & _ & Ho & _).
    fold r1 in Hv', Ho.
    split; [done|]. right. split; [done|].
    destruct Ho as [Ho | [Ho | Ho]]; [left; eauto | by right; left | by right; right]. }
  subst r2 r1.
  destruct (Learner.acceptors l) as [accs|] eqn:Haccs.
  2:{ unfold Learner.receive_accepted. rewrite Hv, Haccs. cbn [fst snd].
      rewrite Hv, Haccs. eauto 10. }
  destruct (accs !! Accepted.from_uid m) as [last|] eqn:Hlast.
  2:{ rewrite (learner_first_vote_raises l m accs Hv Haccs Hlast). cbn [fst snd].
      rewrite (learner_first_vote_raises l m accs Hv Haccs Hlast). eauto 10. }
  rewrite (learner_receive_accepted_known l m accs last Hv Haccs Hlast).
  destruct (py_le (Some (Accepted.proposal_id m)) (Some last)) eqn:Hstale.
  { cbn [fst snd].
    rewrite (learner_receive_accepted_known l m accs last Hv Haccs Hlast), Hstale.
    eauto. }
  set (accs' := <[Accepted.from_uid m := Accepted.proposal_id m]> accs).
  set (l1 := Learner.set_acceptors (Some accs') l).
  assert (Hnew : accs' !! Accepted.from_uid m = Some (Accepted.proposal_id m))
    by apply lookup_insert_eq.
  destruct (learner_revoke_vote_frame l1 (Some last) (Accepted.from_uid m))
    as [props Hrev].
  destruct (Learner.revoke_vote l1 _ _) as [l2 [e|]]; simpl in Hrev; subst l2; simpl.
  - rewrite (learner_receive_accepted_stale _ m accs'); eauto.
  - destruct (learner_count_vote_cases (Learner.set_proposals props l1) m)
      as [[acc ->] | (props' & o & -> & Ho)]; simpl.
    + unfold Learner.receive_accepted, Learner.already_resolved. simpl.
      rewrite ProposalID_ge_le, py_le_refl, bool_decide_true by done. simpl.
      assert ({[Accepted.from_uid m]} ∪ ({[Accepted.from_uid m]} ∪ acc)
              = {[Accepted.from_uid m]} ∪ acc) as ->
        by (by rewrite (assoc_L (∪)), (idemp_L (∪))).
      split; [done|]. right. split; [done|]. left. eauto.
    + rewrite (learner_receive_accepted_stale _ m accs'); eauto.
Qed.

Lemma with_proposer_twice (p : Proposer.t) (s : PaxosInstance.t) :
  PaxosInstance.with_proposer p (PaxosInstance.with_proposer p s)
  = PaxosInstance.with_proposer p s.
Proof. done. Qed.

Lemma with_learner_twice (l : Learner.t) (s : PaxosInstance.t) :
  PaxosInstance.with_learner l (PaxosInstance.with_learner l s)
  = PaxosInstance.with_learner l s.
Proof. done. Qed.

(** X21. Delivering a [Promise] to a Proposer, or an [Accepted] to a
    Learner, a second time in a row leaves the state the first delivery
    produced, whatever that state is.  The second [Promise] returns
    nothing, or both deliveries raise [TypeError] (on a proposer that
    never prepared).  The second [Accepted] returns nothing, being
    stale, or ends as the first did: with the [Resolution] of the final
    value, or with the exception the first delivery raised.  The same
    holds for both messages on a PaxosInstance. *)
Theorem duplicate_delivery_keeps_state :
  (forall (p : Proposer.t) (m : Promise.t),
     let r1 := Proposer.receive p (MPromise m) in
     let r2 := Proposer.receive (fst r1) (MPromise m) in
     fst r2 = fst r1 /\
     (snd r2 = Return None \/
      (snd r1 = Raise TypeError /\ snd r2 = Raise TypeError))) /\
  (forall (l : Learner.t) (m : Accepted.t),
     let r1 := Learner.receive l (MAccepted m) in
     let r2 := Learner.receive (fst r1) (MAccepted m) in
     fst r2 = fst r1 /\
     (snd r2 = Return None \/
      (snd r2 = snd r1 /\
       ((exists v, Learner.final_value (fst r1) = Some v /\
                   snd r1 = Return (Some (MResolution
                              (Resolution.mk (Learner.network_uid l) v)))) \/
        snd r1 = Raise AttributeError \/
        snd r1 = Raise TypeError)))) /\
  (forall (s : PaxosInstance.t) (m : Promise.t),
     let r1 := PaxosInstance.receive s (MPromise m) in
     let r2 := PaxosInstance.receive (fst r1) (MPromise m) in
     fst r2 = fst r1 /\
     (snd r2 = Return None \/
      (snd r1 = Raise TypeError /\ snd r2 = Raise TypeError))) /\
  (forall (s : PaxosInstance.t) (m : Accepted.t),
     let r1 := PaxosInstance.receive s (MAccepted m) in
     let r2 := PaxosInstance.receive (fst r1) (MAccepted m) in
     fst r2 = fst r1 /\
     (snd r2 = Return None \/
      (snd r2 = snd r1 /\
       ((exists v, PaxosInstance.final_value (fst r1) = Some v /\
                   snd r1 = Return (Some (MResolution
                              (Resolution.mk (PaxosInstance.network_uid s) v)))) \/
        snd r1 = Raise AttributeError \/
        snd r1 = Raise TypeError)))).
Proof.
  split; [|split; [|split]].
  - intros p m. apply (proposer_receive_promise_twice p m).
  - intros l m. apply (learner_receive_accepted_twice l m).
  - intros s m r1 r2. subst r2 r1. rewrite !paxos_instance_receive_cases.
    unfold PaxosInstance.receive_promise, inherit.
    pose proof (proposer_receive_promise_twice (PaxosInstance.as_proposer s) m) as H.
    simpl in H.
    destruct (Proposer.receive_promise (PaxosInstance.as_proposer s) m) as [p1 o1].
    simpl in *. rewrite as_proposer_with_proposer.
    destruct (Proposer.receive_promise p1 m) as [p2 o2]. simpl in *.
    destruct H as [-> H]. by rewrite with_proposer_twice.
  - intros s m r1 r2. subst r2 r1. rewrite !paxos_instance_receive_cases.
    unfold PaxosInstance.receive_accepted, inherit.
    pose proof (learner_receive_accepted_twice (PaxosInstance.as_learner s) m) as H.
    simpl in H.
    destruct (Learner.receive_accepted (PaxosInstance.as_learner s) m) as [l1 o1].
    simpl in *. rewrite as_learner_with_learner.
    destruct (Learner.receive_accepted l1 m) as [l2 o2]. simpl in *.
    destruct H as [-> H]. by rewrite with_learner_twice.
Qed.

(** ** The learner's vote bookkeeping, from any state *)

Lemma retained_empty : retained ∅ = 0.
Proof. unfold retained. by rewrite map_fold_empty. Qed.

Lemma retained_insert_fresh (props : gmap ProposalID ProposalStatus.t)
    (pid : ProposalID) (ps : ProposalStatus.t) :
  props !! pid = None ->
  retained (<[pid := ps]> props) = ProposalStatus.retain_count ps + retained props.
Proof.
  intros Hnone. unfold retained.
  rewrite map_fold_insert_L; [done | intros; lia | done].
Qed.

Lemma retained_delete (props : gmap ProposalID ProposalStatus.t)
    (pid : ProposalID) (ps : ProposalStatus.t) :
  props !! pid = Some ps ->
  retained (delete pid props) = retained props - ProposalStatus.retain_count ps.
Proof.
  intros Hsome. unfold retained.
  rewrite (map_fold_delete_L _ _ pid ps props); [lia | intros; lia | done].
Qed.

Lemma retained_insert_over (props : gmap ProposalID ProposalStatus.t)
    (pid : ProposalID) (ps ps' : ProposalStatus.t) :
  props !! pid = Some ps ->
  retained (<[pid := ps']> props)
  = retained props - ProposalStatus.retain_count ps + ProposalStatus.retain_count ps'.
Proof.
  intros Hsome. rewrite <- insert_delete_eq.
  rewrite retained_insert_fresh by apply lookup_delete_eq.
  rewrite (retained_delete _ _ ps Hsome). lia.
Qed.

Lemma size_remove_member (s : gset string) (u : string) :
  u ∈ s -> Z.of_nat (size (s ∖ {[ u ]})) = Z.of_nat (size s) - 1.
Proof.
  intros Hin. rewrite size_difference by (by apply singleton_subseteq_l).
  rewrite size_singleton.
  assert (size s <> 0%nat) by (apply size_non_empty_iff; set_solver).
  lia.
Qed.

Lemma size_add_fresh (s : gset string) (u : string) :
  u ∉ s -> Z.of_nat (size ({[ u ]} ∪ s)) = Z.of_nat (size s) + 1.
Proof.
  intros Hnotin. rewrite size_union by set_solver. rewrite size_singleton. lia.
Qed.

Lemma map_size_delete_present (accs : gmap string ProposalID) (u : string)
    (pid : ProposalID) :
  accs !! u = Some pid ->
  Z.of_nat (size (delete u accs)) = Z.of_nat (size accs) - 1.
Proof.
  intros Hu. rewrite map_size_delete_Some by eauto.
  assert (size accs <> 0%nat) by (apply (map_size_ne_0_lookup_2 _ u); eauto).
  lia.
Qed.

(** Taking back the vote of an acceptor that is counted: its entry loses
    one retained vote and goes when that was its last. *)
Lemma revoke_vote_consistent (l : Learner.t)
    (props : gmap ProposalID ProposalStatus.t) (accs : gmap string ProposalID)
    (u : string) (lp : ProposalID) :
  Learner.proposals l = Some props ->
  votes_counted props accs ->
  votes_linked props accs ->
  accs !! u = Some lp ->
  exists props1,
    Learner.revoke_vote l (Some lp) u = (Learner.set_proposals (Some props1) l, None) /\
    votes_counted props1 (delete u accs) /\
    votes_linked props1 (delete u accs).
Proof.
  intros Hprops [Hcnt Hsum] Hlink Hu.
  destruct (proj1 (Hlink u lp) Hu) as (ps & Hps & Hin).
  pose proof (Hcnt lp ps Hps) as Hrc.
  pose proof (size_remove_member _ _ Hin) as Hsz.
  unfold Learner.revoke_vote. rewrite Hprops, Hps. simpl.
  rewrite bool_decide_true by done.
  destruct (ProposalStatus.retain_count ps - 1 =? 0) eqn:Hzero.
  - apply Z.eqb_eq in Hzero.
    exists (delete lp props). split; [done|]. split; [split|].
    + intros pid ps' [_ Hps']%lookup_delete_Some. by apply (Hcnt pid).
    + rewrite (retained_delete _ _ ps Hps), (map_size_delete_present _ _ lp Hu). lia.
    + intros u' pid. rewrite lookup_delete_Some. split.
      * intros [Hne Hu']. destruct (proj1 (Hlink u' pid) Hu') as (ps' & Hps' & Hin').
        exists ps'. split; [|done]. apply lookup_delete_Some. split; [|done].
        intros <-. simplify_eq.
        assert (Z.of_nat (size (ProposalStatus.acceptors ps ∖ {[u]})) <> 0).
        { assert (size (ProposalStatus.acceptors ps ∖ {[u]}) <> 0%nat); [|lia].
          apply size_non_empty_iff. set_solver. }
        lia.
      * intros (ps' & [Hne Hps']%lookup_delete_Some & Hin').
        pose proof (proj2 (Hlink u' pid) (ex_intro _ ps' (conj Hps' Hin'))) as Hu'.
        split; [|done]. intros <-. congruence.
  - apply Z.eqb_neq in Hzero.
    eexists. split; [done|]. split; [split|].
    + intros pid ps' [[<- <-] | [Hne Hps']]%lookup_insert_Some; simpl.
      * lia.
      * by apply (Hcnt pid).
    + rewrite (retained_insert_over _ _ ps _ Hps), (map_size_delete_present _ _ lp Hu).
      simpl. lia.
    + intros u' pid. rewrite lookup_delete_Some. split.
      * intros [Hne Hu']. destruct (proj1 (Hlink u' pid) Hu') as (ps' & Hps' & Hin').
        destruct (decide (lp = pid)) as [<- | Hpid].
        -- simplify_eq. eexists. rewrite lookup_insert_eq. split; [done|].
           simpl. set_solver.
        -- exists ps'. by rewrite lookup_insert_ne.
      * intros (ps' & Hps' & Hin').
        apply lookup_insert_Some in Hps' as [[<- <-] | [Hne Hps']]; simpl in *.
        -- apply elem_of_difference in Hin' as [Hin1 Hne1].
           rewrite elem_of_singleton in Hne1. split; [done|].
           apply Hlink. by exists ps.
        -- pose proof (proj2 (Hlink u' pid) (ex_intro _ ps' (conj Hps' Hin'))) as Hu'.
           split; [|done]. intros <-. congruence.
Qed.

Lemma votes_linked_add (props : gmap ProposalID ProposalStatus.t)
    (accs : gmap string ProposalID) (u : string) (pid : ProposalID)
    (ps : ProposalStatus.t) :
  votes_linked props accs ->
  accs !! u = None ->
  ProposalStatus.acceptors ps
    = {[ u ]} ∪ match props !! pid with
                | Some old => ProposalStatus.acceptors old
                | None => ∅
                end ->
  votes_linked (<[pid := ps]> props) (<[u := pid]> accs).
Proof.
  intros Hlink Hu Hacc u' pid'. split.
  - intros [[<- <-] | [Hne Hu']]%lookup_insert_Some.
    + exists ps. rewrite lookup_insert_eq. split; [done|].
      rewrite Hacc. apply elem_of_union_l. by apply elem_of_singleton.
    + destruct (proj1 (Hlink u' pid') Hu') as (ps' & Hps' & Hin').
      destruct (decide (pid = pid')) as [<- | Hpid].
      * exists ps. rewrite lookup_insert_eq. split; [done|].
        rewrite Hacc, Hps'. by apply elem_of_union_r.
      * exists ps'. by rewrite lookup_insert_ne.
  - intros (ps' & Hps' & Hin').
    apply lookup_insert_Some in Hps' as [[<- <-] | [Hne Hps']].
    + rewrite Hacc in Hin'. apply elem_of_union in Hin' as [Hin' | Hin'].
      * apply elem_of_singleton in Hin' as ->. apply lookup_insert_eq.
      * destruct (props !! pid) as [old|] eqn:Hold.
        -- assert (accs !! u' = Some pid) as Hu' by (apply Hlink; eauto).
           rewrite lookup_insert_ne; [done | congruence].
        -- by apply not_elem_of_empty in Hin'.
    + assert (accs !! u' = Some pid') as Hu' by (apply Hlink; eauto).
      rewrite lookup_insert_ne; [done | congruence].
Qed.

(** Counting the vote of an acceptor that is not counted anywhere: the
    assertion stops the call, or the learner resolves, or the entry of
    the proposal id gains the vote. *)
Lemma count_vote_consistent (l : Learner.t)
    (props : gmap ProposalID ProposalStatus.t) (accs : gmap string ProposalID)
    (m : Accepted.t) :
  Learner.proposals l = Some props ->
  votes_counted props accs ->
  votes_linked props accs ->
  accs !! Accepted.from_uid m = None ->
  (Learner.count_vote l m = (l, Raise AssertionError) /\
   exists ps, props !! Accepted.proposal_id m = Some ps /\
              Accepted.proposal_value m <> ProposalStatus.value ps) \/
  (exists acc,
     Learner.count_vote l m
     = (Learner.mk (Learner.network_uid l) (Learner.quorum_size l) None None
          (Some (Accepted.proposal_value m))
          (Some ({[ Accepted.from_uid m ]} ∪ acc))
          (Some (Accepted.proposal_id m)),
        Return (Some (MResolution
          (Resolution.mk (Learner.network_uid l) (Accepted.proposal_value m)))))) \/
  (exists props2,
     Learner.count_vote l m = (Learner.set_proposals (Some props2) l, Return None) /\
     votes_counted props2 (<[Accepted.from_uid m := Accepted.proposal_id m]> accs) /\
     votes_linked props2 (<[Accepted.from_uid m := Accepted.proposal_id m]> accs)).
Proof.
  intros Hprops [Hcnt Hsum] Hlink Hu.
  unfold Learner.count_vote. rewrite Hprops.
  destruct (props !! Accepted.proposal_id m) as [ps|] eqn:Hps.
  - case_bool_decide as Hval.
    2:{ left. split; [|eauto]. destruct l; simpl in *. by subst. }
    destruct (Z.eqb _ (Learner.quorum_size l)); [right; left; eauto|].
    right. right. eexists. split; [done|].
    assert (Accepted.from_uid m ∉ ProposalStatus.acceptors ps) as Hnotin.
    { intros Hin.
      assert (accs !! Accepted.from_uid m = Some (Accepted.proposal_id m))
        by (apply Hlink; eauto).
      congruence. }
    split; [split|].
    + intros pid ps' [[<- <-] | [Hne Hps']]%lookup_insert_Some;
        cbn [ProposalStatus.retain_count ProposalStatus.acceptors].
      * rewrite size_add_fresh by done. rewrite (Hcnt _ _ Hps). lia.
      * by apply (Hcnt pid).
    + rewrite (retained_insert_over _ _ ps _ Hps). simpl.
      rewrite map_size_insert_None by done. lia.
    + apply votes_linked_add; [done | done |]. simpl. by rewrite Hps.
  - cbn beta iota zeta. rewrite bool_decide_true by done.
    destruct (Z.eqb _ (Learner.quorum_size l)); [right; left; eauto|].
    right. right. eexists. split; [done|].
    rewrite insert_insert_eq.
    split; [split|].
    + intros pid ps' [[<- <-] | [Hne Hps']]%lookup_insert_Some;
        unfold ProposalStatus.init;
        cbn [ProposalStatus.retain_count ProposalStatus.acceptors].
      * rewrite size_add_fresh by apply not_elem_of_empty. by rewrite size_empty.
      * by apply (Hcnt pid).
    + rewrite retained_insert_fresh by done. simpl.
      rewrite map_size_insert_None by done. lia.
    + apply votes_linked_add; [done | done |]. simpl. by rewrite Hps.
Qed.

(** One call on a learner whose bookkeeping is in order, whatever votes
    it holds.  The call raises [TypeError] on a sender's first message and
    changes nothing; or it returns, and leaves the bookkeeping in order
    unless it resolved the learner; or it stops on the assertion that one
    proposal id carries one value, after [acceptors] has taken the
    sender's new vote and before any entry has. *)
Lemma learner_step_bookkeeping (l : Learner.t) (m : Accepted.t) :
  learner_bookkeeping l ->
  let r := Learner.receive_accepted l m in
  snd r = Raise AssertionError \/
  ((snd r = Raise TypeError \/ exists reply, snd r = Return reply) /\
   (Learner.final_value (fst r) = None -> learner_bookkeeping (fst r))).
Proof.
  intros (Hv & props & accs & Hp & Ha & Hc & Hl) r. subst r.
  assert (Hsame : learner_bookkeeping l) by (split; [done|]; by exists props, accs).
  destruct (accs !! Accepted.from_uid m) as [lp|] eqn:Hlast.
  2:{ rewrite (learner_first_vote_raises l m accs Hv Ha Hlast). right. eauto. }
  rewrite (learner_receive_accepted_known l m accs lp Hv Ha Hlast).
  destruct (py_le (Some (Accepted.proposal_id m)) (Some lp)); [right; eauto|].
  set (accs' := <[Accepted.from_uid m := Accepted.proposal_id m]> accs).
  set (l1 := Learner.set_acceptors (Some accs') l).
  assert (Hp1 : Learner.proposals l1 = Some props) by done.
  destruct (revoke_vote_consistent l1 props accs _ lp Hp1 Hc Hl Hlast)
    as (props1 & -> & Hc1 & Hl1).
  destruct (count_vote_consistent (Learner.set_proposals (Some props1) l1)
              props1 (delete (Accepted.from_uid m) accs) m eq_refl Hc1 Hl1
              (lookup_delete_eq _ _))
    as [[-> _] | [[acc ->] | (props2 & -> & Hc2 & Hl2)]];
    [by left | right; split; [eauto | done] |].
  right. split; [eauto|]. intros _.
  rewrite insert_delete_eq in Hc2, Hl2.
  split; [done|]. by exists props2, accs'.
Qed.

(** ** The scenarios of the specification, run on the code *)

(** The solo round stops at its second step: an acceptor constructed
    without a promised id cannot answer the [Prepare]. *)
Example scenario_solo_round :
  let '(p, prep) := Proposer.prepare (Proposer.init "A" 2) in
  let x := Acceptor.init "X" None None None in
  prep = Prepare.mk "A" (mkProposalID 1 "A") /\
  Acceptor.receive x (MPrepare prep) = (x, Raise TypeError).
Proof. by vm_compute. Qed.

(** A promise that carries a prior acceptance is not adopted: the
    restored acceptor promises and reports what it accepted, and the
    proposer raises on comparing the reported id with its missing
    [highest_accepted_id]. *)
Example scenario_promise_carries_prior_value :
  let a1 := mkProposalID 1 "A" in
  let x := Acceptor.init "X" (Some a1) (Some a1) (Some "v1") in
  let '(b, prep) := Proposer.prepare (Proposer.init "B" 2) in
  let promise := reply_of (Acceptor.receive x (MPrepare prep)) in
  promise = MPromise (Promise.mk "X" "B" (mkProposalID 1 "B") (Some a1) (Some "v1")) /\
  snd (Proposer.receive b promise) = Raise TypeError /\
  Proposer.proposed_value (fst (Proposer.receive b promise)) = None.
Proof. by vm_compute. Qed.

(** A rejected [Prepare]: the acceptor names its promise, and on a
    quorum of such rejections the proposer opens a round above it. *)
Example scenario_prepare_rejected :
  let a := Acceptor.init "X" (Some (mkProposalID 5 "Z")) None None in
  let p := Proposer.run (Proposer.init "A" 1)
             [Proposer.CallPrepare; Proposer.CallPrepare; Proposer.CallPrepare] in
  let nack := reply_of (Acceptor.receive a
                          (MPrepare (Prepare.mk "A" (Proposer.proposal_id p)))) in
  nack = MNack (Nack.mk "X" "A" (mkProposalID 3 "A") (Some (mkProposalID 5 "Z"))) /\
  snd (Proposer.receive p nack)
    = Return (Some (MPrepare (Prepare.mk "A" (mkProposalID 6 "A")))).
Proof. by vm_compute. Qed.
